(** * groauto_script: parameter-file generation and the GROMACS pipeline

    A shallow embedding of [groauto_script.py].  The script asks for a
    temperature, a simulation length and a structure name, writes five
    [.mdp] parameter files, and then runs thirteen [gmx_mpi] commands one after
    the other, stopping at the first one that fails.

    Conventions of the embedding:
    - Python [str] values are [string]s of ASCII characters;
    - Python [int] is [Z]; Python [float] is IEEE-754 binary64, given by
      [spec_float] with the operations of [SpecFloat] at precision 53;
    - the working directory is a finite map from file names to contents;
    - the console and the external engine are explicit: standard input is
      the list of lines still to be read, every prompt, print, file write and
      command invocation is appended to a log, and the external commands
      are a function from the command line, its piped input and the current
      files to an exit status and the files it leaves behind;
    - an exit status is a natural number, the status the shell reports for
      the command; a shell killed by a signal is not represented. *)

From Stdlib Require Import ZArith NArith String Ascii List Bool Lia.
From Stdlib Require Import DecimalString DecimalPos.
From Stdlib Require Import Floats.SpecFloat.
From stdpp Require Import gmap strings.

Open Scope Z_scope.

(** ** Python text primitives *)

Module PyText.

(** [str(n)] for an [int]. *)
Definition str_of_int (n : Z) : string :=
  NilZero.string_of_int (Z.to_int n).

(** Characters for which [str.isspace] holds, within ASCII: TAB, LF, VT, FF,
    CR, the four separators FS, GS, RS, US, and the space. *)
Definition isspace (c : ascii) : bool :=
  let n := N_of_ascii c in
  ((9 <=? n) && (n <=? 13) || (28 <=? n) && (n <=? 32))%N.

(** Drop the leading characters that satisfy [sp]. *)
Fixpoint lstrip_by (sp : ascii → bool) (s : string) : string :=
  match s with
  | String c s' => if sp c then lstrip_by sp s' else s
  | EmptyString => EmptyString
  end.

(** Drop the trailing characters that satisfy [sp]: a character is kept
    when it does not satisfy [sp] or something that is kept follows it. *)
Fixpoint rstrip_by (sp : ascii → bool) (s : string) : string :=
  match s with
  | String c s' =>
      match rstrip_by sp s' with
      | EmptyString => if sp c then EmptyString else String c EmptyString
      | r => String c r
      end
  | EmptyString => EmptyString
  end.

(** [s.strip()] *)
Definition strip (s : string) : string := rstrip_by isspace (lstrip_by isspace s).

Definition isdigit (c : ascii) : bool :=
  let n := N_of_ascii c in ((48 <=? n) && (n <=? 57))%N.

Definition digit_value (c : ascii) : Z := Z.of_N (N_of_ascii c) - 48.

(** ASCII lower-casing of one character. *)
Definition lower (c : ascii) : ascii :=
  let n := N_of_ascii c in
  if ((65 <=? n) && (n <=? 90))%N then ascii_of_N (n + 32) else c.

(** [s] starts with [p], compared without regard to case ([p] is given in
    lower case); the remainder of [s] is returned. *)
Fixpoint match_nocase (p s : string) : option string :=
  match p, s with
  | EmptyString, _ => Some s
  | String a p', String c s' =>
      if Ascii.eqb a (lower c) then match_nocase p' s' else None
  | String _ _, EmptyString => None
  end.

End PyText.

(** ** Exceptions the script can meet *)

Inductive exn : Type :=
  | ValueError
  | OverflowError
  | EOFError
  | CalledProcessError (cmd : string) (returncode : N)
  | SystemExit (code : N).

(** ** Python floats: IEEE-754 binary64 *)

Module PyFloat.

Import PyText.

Definition prec : Z := 53.
Definition emax : Z := 1024.

(** [x * y] on floats. *)
Definition mul (x y : spec_float) : spec_float := SFmul prec emax x y.

(** [float(n)] for an [int]: the nearest float, [OverflowError] when the
    nearest float would be infinite. *)
Definition of_int (n : Z) : exn + spec_float :=
  match binary_normalize prec emax n 0 false with
  | S754_infinity _ => inl OverflowError
  | f => inr f
  end.

(** [int(x)] for a float: truncation toward zero. *)
Definition to_int (x : spec_float) : exn + Z :=
  match x with
  | S754_nan => inl ValueError
  | S754_infinity _ => inl OverflowError
  | S754_zero _ => inr 0
  | S754_finite s m e => inr (cond_Zopp s (Z.shiftl (Zpos m) e))
  end.

(** *** [float(s)] for a string *)

(** The white space that [float] skips around an ASCII string: TAB, LF, VT,
    FF, CR and the space (the separators FS to US are not skipped). *)
Definition isspace_c (c : ascii) : bool :=
  let n := N_of_ascii c in
  ((9 <=? n) && (n <=? 13) || (n =? 32))%N.

(** Underscores may only stand between two digits; they are removed. *)
Fixpoint remove_underscores (prev : ascii) (s : string) : option string :=
  match s with
  | EmptyString => if Ascii.eqb prev "_" then None else Some EmptyString
  | String c s' =>
      if Ascii.eqb c "_" then
        if isdigit prev then remove_underscores c s' else None
      else if Ascii.eqb prev "_" && negb (isdigit c) then None
      else option_map (String c) (remove_underscores c s')
  end.

Definition scan_sign (s : string) : bool * string :=
  match s with
  | String "-" s' => (true, s')
  | String "+" s' => (false, s')
  | _ => (false, s)
  end.

(** Read a run of decimal digits, continuing the number [acc]; returns the
    number, how many digits were read, and what follows them. *)
Fixpoint scan_digits (s : string) (acc : Z) (n : Z) : Z * Z * string :=
  match s with
  | String c s' =>
      if isdigit c then scan_digits s' (10 * acc + digit_value c) (n + 1)
      else (acc, n, s)
  | EmptyString => (acc, n, s)
  end.

(** A decimal literal [sign digits [. digits] [e sign digits]] with at least
    one digit before the exponent, read as [(neg, M, E)]: the number
    [(-1)^neg * M * 10^E]. *)
Definition parse_decimal (s : string) : option (bool * Z * Z) :=
  let '(neg, s1) := scan_sign s in
  let '(ip, n1, s2) := scan_digits s1 0 0 in
  let '(m, n2, s3) :=
    match s2 with
    | String "." t => scan_digits t ip 0
    | _ => (ip, 0, s2)
    end in
  if n1 + n2 =? 0 then None
  else
    match s3 with
    | EmptyString => Some (neg, m, - n2)
    | String c s4 =>
        if Ascii.eqb (lower c) "e" then
          let '(eneg, s5) := scan_sign s4 in
          let '(ev, n3, s6) := scan_digits s5 0 0 in
          if n3 =? 0 then None
          else
            match s6 with
            | EmptyString => Some (neg, m, cond_Zopp eneg ev - n2)
            | String _ _ => None
            end
        else None
    end.

(** [inf], [infinity] and [nan], signed, in any case. *)
Definition parse_special (s : string) : option spec_float :=
  let '(neg, s1) := scan_sign s in
  match match_nocase "inf" s1 with
  | Some EmptyString => Some (S754_infinity neg)
  | Some r =>
      match match_nocase "inity" r with
      | Some EmptyString => Some (S754_infinity neg)
      | _ => None
      end
  | None =>
      match match_nocase "nan" s1 with
      | Some EmptyString => Some S754_nan
      | _ => None
      end
  end.

(** The float nearest to [p / q], ties to even. *)
Definition round_ratio (neg : bool) (p q : positive) : spec_float :=
  let '(m, e, l) := SFdiv_core_binary prec emax (Zpos p) 0 (Zpos q) 0 in
  binary_round_aux prec emax neg m e l.

(** The float nearest to [(-1)^neg * M * 10^E]. *)
Definition of_decimal (neg : bool) (M E : Z) : spec_float :=
  match M with
  | Zpos m =>
      if 0 <=? E then binary_round prec emax neg (Z.to_pos (Zpos m * 10 ^ E)) 0
      else round_ratio neg m (Z.to_pos (10 ^ (- E)))
  | _ => S754_zero neg
  end.

(** [float(s)]: [None] stands for [ValueError]. *)
Definition of_string (s : string) : option spec_float :=
  match remove_underscores "000" (rstrip_by isspace_c (lstrip_by isspace_c s)) with
  | None => None
  | Some t =>
      match parse_decimal t with
      | Some (neg, M, E) => Some (of_decimal neg M E)
      | None => parse_special t
      end
  end.

End PyFloat.

(** ** The values the script handles *)

(** The value of [input(...) or 298]: the line typed, or the integer default
    when the line is empty. *)
Inductive str_or_int : Type :=
  | PStr (s : string)
  | PInt (n : Z).

(** The [ns_length] argument: an [int] (the default) or a [float]. *)
Inductive number : Type :=
  | NInt (n : Z)
  | NFloat (x : spec_float).

(** [x or d]: the empty string is the only false string. *)
Definition or_default (x : string) (d : Z) : str_or_int :=
  match x with
  | EmptyString => PInt d
  | String _ _ => PStr x
  end.

(** A replacement field [{v}] of an f-string. *)
Definition fmt (v : str_or_int) : string :=
  match v with
  | PStr s => s
  | PInt n => PyText.str_of_int n
  end.

(** [float(v)] *)
Definition float (v : str_or_int) : exn + spec_float :=
  match v with
  | PStr s =>
      match PyFloat.of_string s with
      | Some x => inr x
      | None => inl ValueError
      end
  | PInt n => PyFloat.of_int n
  end.

(** [int(ns_length * 1000000)] *)
Definition total_steps (ns_length : number) : exn + Z :=
  match ns_length with
  | NInt n => inr (n * 1000000)
  | NFloat x =>
      match PyFloat.of_int 1000000 with
      | inr million => PyFloat.to_int (PyFloat.mul x million)
      | inl e => inl e
      end
  end.

(** ** The five parameter files *)

(** The line feed that ends every line of the templates. *)
Definition LF : string := String (ascii_of_nat 10) EmptyString.

Definition ions_mdp : string := "integrator = steep" +:+ LF.

Definition minim_mdp : string :=
  "integrator  = steep" +:+ LF +:+
  "emtol       = 1000.0" +:+ LF +:+
  "emstep      = 0.01" +:+ LF +:+
  "nsteps      = 50000" +:+ LF +:+
  "nstlist     = 1" +:+ LF +:+
  "cutoff-scheme = Verlet" +:+ LF +:+
  "ns_type     = grid" +:+ LF +:+
  "coulombtype = PME" +:+ LF +:+
  "rcoulomb    = 1.0" +:+ LF +:+
  "rvdw        = 1.0" +:+ LF +:+
  "pbc         = xyz" +:+ LF.

Definition nvt_mdp (temp : str_or_int) : string :=
  "define                  = -DPOSRES" +:+ LF +:+
  "integrator              = md" +:+ LF +:+
  "dt                      = 0.001" +:+ LF +:+
  "nsteps                  = 50000" +:+ LF +:+
  "nstxout                 = 500" +:+ LF +:+
  "tcoupl                  = v-rescale" +:+ LF +:+
  "tc-grps                 = Protein Non-Protein" +:+ LF +:+
  "tau_t                   = 0.1     0.1" +:+ LF +:+
  "ref_t                   = " +:+ fmt temp +:+ "     " +:+ fmt temp +:+ LF +:+
  "pcoupl                  = no" +:+ LF +:+
  "pbc                     = xyz" +:+ LF.

Definition npt_mdp (temp : str_or_int) : string :=
  "define                  = -DPOSRES" +:+ LF +:+
  "integrator              = md" +:+ LF +:+
  "dt                      = 0.001" +:+ LF +:+
  "nsteps                  = 50000" +:+ LF +:+
  "nstxout                 = 500" +:+ LF +:+
  "tcoupl                  = v-rescale" +:+ LF +:+
  "tc-grps                 = Protein Non-Protein" +:+ LF +:+
  "tau_t                   = 0.1     0.1" +:+ LF +:+
  "ref_t                   = " +:+ fmt temp +:+ "     " +:+ fmt temp +:+ LF +:+
  "pcoupl                  = c-rescale" +:+ LF +:+
  "pcoupltype              = isotropic" +:+ LF +:+
  "tau_p                   = 2.0" +:+ LF +:+
  "compressibility         = 4.5e-5" +:+ LF +:+
  "ref_p                   = 1.0" +:+ LF +:+
  "refcoord_scaling        = com" +:+ LF +:+
  "coulombtype             = PME" +:+ LF +:+
  "rcoulomb                = 1.0" +:+ LF +:+
  "fourierspacing          = 0.12" +:+ LF +:+
  "pme_order               = 4" +:+ LF +:+
  "constraints             = h-bonds" +:+ LF.

Definition md_mdp (temp : str_or_int) (steps : Z) : string :=
  "integrator              = md" +:+ LF +:+
  "dt                      = 0.001" +:+ LF +:+
  "nsteps                  = " +:+ PyText.str_of_int steps +:+ LF +:+
  "nstxout-compressed      = 5000" +:+ LF +:+
  "tcoupl                  = v-rescale" +:+ LF +:+
  "tc-grps                 = Protein Non-Protein" +:+ LF +:+
  "tau_t                   = 0.1     0.1" +:+ LF +:+
  "ref_t                   = " +:+ fmt temp +:+ "     " +:+ fmt temp +:+ LF +:+
  "pcoupl                  = c-rescale" +:+ LF +:+
  "pcoupltype              = isotropic" +:+ LF +:+
  "tau_p                   = 2.0" +:+ LF +:+
  "ref_p                   = 1.0" +:+ LF +:+
  "compressibility         = 4.5e-5" +:+ LF +:+
  "coulombtype             = PME" +:+ LF +:+
  "rcoulomb                = 1.0" +:+ LF +:+
  "fourierspacing          = 0.12" +:+ LF +:+
  "pme_order               = 4" +:+ LF +:+
  "vdw-type                = Cut-off" +:+ LF +:+
  "rvdw                    = 1.0" +:+ LF +:+
  "compressed-x-grps       = Protein" +:+ LF.

(** The dictionary [mdp_content], in insertion order. *)
Definition mdp_content (temp : str_or_int) (steps : Z) : list (string * string) :=
  [ ("ions.mdp", ions_mdp);
    ("minim.mdp", minim_mdp);
    ("nvt.mdp", nvt_mdp temp);
    ("npt.mdp", npt_mdp temp);
    ("md.mdp", md_mdp temp steps) ].

(** ** The world the script runs in *)

Inductive event : Type :=
  | Prompted (text : string)
  | Printed (text : string)
  | Written (name content : string)
  | Invoked (cmd : string) (input_val : option string) (returncode : N).

Record world : Type := World {
  stdin : list string;
  files : gmap string string;
  log : list event
}.

Definition emit (e : event) (w : world) : world :=
  {| stdin := stdin w; files := files w; log := log w ++ [e] |}.

(** A computation either raises or returns, and leaves a world behind. *)
Definition prog (A : Type) : Type := world → (exn + A) * world.

#[export] Instance prog_ret : MRet prog := λ A a w, (inr a, w).

#[export] Instance prog_bind : MBind prog := λ A B k m w,
  match m w with
  | (inr a, w') => k a w'
  | (inl e, w') => (inl e, w')
  end.

Definition raise {A : Type} (e : exn) : prog A := λ w, (inl e, w).

(** Lift a pure computation that may raise. *)
Definition lift {A : Type} (r : exn + A) : prog A := λ w, (r, w).

(** [try: m except ...: h], where [h] says which exceptions it handles. *)
Definition try_except {A : Type} (m : prog A) (h : exn → option (prog A)) : prog A :=
  λ w,
    match m w with
    | (inr a, w') => (inr a, w')
    | (inl e, w') =>
        match h e with
        | Some handler => handler w'
        | None => (inl e, w')
        end
    end.

(** [input(prompt)]: the prompt is shown, one line is read; at end of
    input [EOFError] is raised. *)
Definition input (prompt : string) : prog string := λ w,
  match stdin w with
  | line :: rest =>
      (inr line, {| stdin := rest; files := files w; log := log w ++ [Prompted prompt] |})
  | [] => (inl EOFError, emit (Prompted prompt) w)
  end.

Definition print (text : string) : prog unit := λ w, (inr tt, emit (Printed text) w).

(** [with open(filename, "w") as f: f.write(content)] *)
Definition write_file (filename content : string) : prog unit := λ w,
  (inr tt,
   {| stdin := stdin w;
      files := <[filename := content]> (files w);
      log := log w ++ [Written filename content] |}).

(** [exit(code)] *)
Definition exit {A : Type} (code : N) : prog A := raise (SystemExit code).

(** [str(e)] for the [CalledProcessError] of a command that returned the
    status [returncode]. *)
Definition str_of_CalledProcessError (cmd : string) (returncode : N) : string :=
  "Command '" +:+ cmd +:+ "' returned non-zero exit status "
    +:+ PyText.str_of_int (Z.of_N returncode) +:+ ".".

(** The status with which the interpreter ends: 0 after the last statement,
    the argument of [exit], and 1 for any other exception, which nobody
    catches. *)
Definition exit_status {A : Type} (r : exn + A) : N :=
  match r with
  | inr _ => 0
  | inl (SystemExit code) => code
  | inl _ => 1
  end%N.

(** ** The script *)

Section Script.

(** The external engine: what a command line, run by the shell with the
    given text on its standard input, returns as exit status and leaves in
    the working directory.  The script reads its last line before the first
    command runs, so what a command reads from the terminal is of no
    consequence to it. *)
Variable engine : string → option string → gmap string string → N * gmap string string.

(** [subprocess.run(command, shell=True, check=True, text=True, input=input_val)] *)
Definition subprocess_run (command : string) (input_val : option string) : prog unit :=
  λ w,
    let '(rc, fs) := engine command input_val (files w) in
    let w' := {| stdin := stdin w; files := fs;
                 log := log w ++ [Invoked command input_val rc] |} in
    if (rc =? 0)%N then (inr tt, w')
    else (inl (CalledProcessError command rc), w').

Definition write_mdp_files (temp : str_or_int) (ns_length : number) : prog unit :=
  steps ← lift (total_steps ns_length);
  mapM (λ '(filename, content), write_file filename content) (mdp_content temp steps);;
  print "Successfully generated all .mdp files.".

Definition run_step (command : string) (input_val : option string) : prog unit :=
  try_except (subprocess_run command input_val)
    (λ e,
       match e with
       | CalledProcessError cmd returncode =>
           Some (print ("Error during execution: "
                          +:+ str_of_CalledProcessError cmd returncode);;
                 exit 1%N)
       | _ => None
       end).

(** Lines 110 to 114: the two prompts and the generation of the files. *)
Definition prepare : prog (str_or_int * str_or_int) :=
  t ← input "Enter simulation temperature (default 298): ";
  let user_temp := or_default t 298 in
  n ← input "Enter simulation length in ns (default 50): ";
  let user_ns := or_default n 50 in
  x ← lift (float user_ns);
  write_mdp_files user_temp (NFloat x);;
  mret (user_temp, user_ns).

(** Lines 117 to 145: the structure name and the thirteen commands. *)
Definition pipeline (user_temp user_ns : str_or_int) : prog unit :=
  p ← input "PDB file name (without .pdb): ";
  let pdb_name := PyText.strip p in
  run_step ("gmx_mpi pdb2gmx -f " +:+ pdb_name +:+ ".pdb -o protein_processed.gro -water tips3p -ignh") (Some "8");;
  run_step "gmx_mpi editconf -f protein_processed.gro -o box.gro -c -d 1.0 -bt cubic" None;;
  run_step "gmx_mpi solvate -cp box.gro -cs spc216.gro -o solvated.gro -p topol.top" None;;
  run_step "gmx_mpi grompp -f ions.mdp -c solvated.gro -p topol.top -o ions.tpr" None;;
  run_step "gmx_mpi genion -s ions.tpr -o ions.gro -p topol.top -pname NA -nname CL -neutral" (Some "13");;
  run_step "gmx_mpi grompp -f minim.mdp -c ions.gro -p topol.top -o em.tpr" None;;
  run_step "gmx_mpi mdrun -v -deffnm em" None;;
  run_step "gmx_mpi grompp -f nvt.mdp -c em.gro -r em.gro -p topol.top -o nvt.tpr" None;;
  run_step "gmx_mpi mdrun -v -deffnm nvt" None;;
  run_step "gmx_mpi grompp -f npt.mdp -c nvt.gro -r nvt.gro -t nvt.cpt -p topol.top -o npt.tpr" None;;
  run_step "gmx_mpi mdrun -v -deffnm npt" None;;
  run_step ("gmx_mpi grompp -f md.mdp -c npt.gro -t npt.cpt -p topol.top -o md_" +:+ fmt user_ns +:+ "ns.tpr") None;;
  run_step ("gmx_mpi mdrun -v -deffnm md_" +:+ fmt user_ns +:+ "ns") None;;
  print (LF +:+ "Simulation complete for " +:+ fmt user_ns +:+ "ns at " +:+ fmt user_temp +:+ "K!").

Definition script : prog unit :=
  '(user_temp, user_ns) ← prepare;
  pipeline user_temp user_ns.

(** Running the script on the lines typed and the files present: the exit
    status and the final world. *)
Definition run (lines : list string) (fs : gmap string string) : N * world :=
  let '(r, w) := script {| stdin := lines; files := fs; log := [] |} in
  (exit_status r, w).

End Script.

(** * Vocabulary of the statements *)

Arguments ions_mdp : simpl never.
Arguments minim_mdp : simpl never.
Arguments nvt_mdp : simpl never.
Arguments npt_mdp : simpl never.
Arguments md_mdp : simpl never.

(** ** What the file generation does to the world *)

(** The working directory after the five files have been written. *)
Definition with_mdp_files (temp : str_or_int) (steps : Z)
    (fs : gmap string string) : gmap string string :=
  <["md.mdp" := md_mdp temp steps]>
    (<["npt.mdp" := npt_mdp temp]>
      (<["nvt.mdp" := nvt_mdp temp]>
        (<["minim.mdp" := minim_mdp]>
          (<["ions.mdp" := ions_mdp]> fs)))).

(** The log entries of one generation. *)
Definition mdp_events (temp : str_or_int) (steps : Z) : list event :=
  map (λ '(filename, content), Written filename content) (mdp_content temp steps)
    ++ [Printed "Successfully generated all .mdp files."].

Definition temperature_prompt : string := "Enter simulation temperature (default 298): ".
Definition length_prompt : string := "Enter simulation length in ns (default 50): ".

(** ** The command runner and the pipeline *)

(** What [run_step] prints when a command fails. *)
Definition failure_message (command : string) (rc : N) : string :=
  "Error during execution: Command '" +:+ command
    +:+ "' returned non-zero exit status " +:+ PyText.str_of_int (Z.of_N rc) +:+ ".".

(** The command lines of the pipeline, in order, with their piped input. *)
Definition commands (pdb_name : string) (user_ns : str_or_int) : list (string * option string) :=
  [ ("gmx_mpi pdb2gmx -f " +:+ pdb_name +:+ ".pdb -o protein_processed.gro -water tips3p -ignh", Some "8");
    ("gmx_mpi editconf -f protein_processed.gro -o box.gro -c -d 1.0 -bt cubic", None);
    ("gmx_mpi solvate -cp box.gro -cs spc216.gro -o solvated.gro -p topol.top", None);
    ("gmx_mpi grompp -f ions.mdp -c solvated.gro -p topol.top -o ions.tpr", None);
    ("gmx_mpi genion -s ions.tpr -o ions.gro -p topol.top -pname NA -nname CL -neutral", Some "13");
    ("gmx_mpi grompp -f minim.mdp -c ions.gro -p topol.top -o em.tpr", None);
    ("gmx_mpi mdrun -v -deffnm em", None);
    ("gmx_mpi grompp -f nvt.mdp -c em.gro -r em.gro -p topol.top -o nvt.tpr", None);
    ("gmx_mpi mdrun -v -deffnm nvt", None);
    ("gmx_mpi grompp -f npt.mdp -c nvt.gro -r nvt.gro -t nvt.cpt -p topol.top -o npt.tpr", None);
    ("gmx_mpi mdrun -v -deffnm npt", None);
    ("gmx_mpi grompp -f md.mdp -c npt.gro -t npt.cpt -p topol.top -o md_" +:+ fmt user_ns +:+ "ns.tpr", None);
    ("gmx_mpi mdrun -v -deffnm md_" +:+ fmt user_ns +:+ "ns", None) ].

(** No command in this part of the log has failed. *)
Definition clean (l : list event) : Prop :=
  ∀ c i rc, Invoked c i rc ∈ l → rc = 0%N.

(** The log ends with a failed command and the message about it, and no
    command before it has failed. *)
Definition stopped_at_failure (l : list event) : Prop :=
  ∃ pre c i rc,
    rc ≠ 0%N ∧ clean pre ∧ l = pre ++ [Invoked c i rc; Printed (failure_message c rc)].

(** Either nothing has failed so far, or the computation has just exited
    with status 1 at the first failure. *)
Definition outcome_ok {A : Type} (rw : (exn + A) * world) : Prop :=
  clean (log rw.2) ∨ (rw.1 = inl (SystemExit 1) ∧ stopped_at_failure (log rw.2)).

(** [run_step] on each command in turn, then [k]. *)
Fixpoint run_all (engine : string → option string → gmap string string → N * gmap string string)
    (cmds : list (string * option string)) (k : prog unit) : prog unit :=
  match cmds with
  | [] => k
  | (c, i) :: rest => run_step engine c i ;; run_all engine rest k
  end.

(** ** The shape of the generated files *)

(** The line that carries the temperature, once per coupling group. *)
Definition ref_t_line (temp : str_or_int) : string :=
  "ref_t                   = " +:+ fmt temp +:+ "     " +:+ fmt temp +:+ LF.

Definition nvt_head : string :=
  "define                  = -DPOSRES" +:+ LF +:+
  "integrator              = md" +:+ LF +:+
  "dt                      = 0.001" +:+ LF +:+
  "nsteps                  = 50000" +:+ LF +:+
  "nstxout                 = 500" +:+ LF +:+
  "tcoupl                  = v-rescale" +:+ LF +:+
  "tc-grps                 = Protein Non-Protein" +:+ LF +:+
  "tau_t                   = 0.1     0.1" +:+ LF.

Definition nvt_tail : string :=
  "pcoupl                  = no" +:+ LF +:+
  "pbc                     = xyz" +:+ LF.

Definition npt_head : string := nvt_head.

Definition npt_tail : string :=
  "pcoupl                  = c-rescale" +:+ LF +:+
  "pcoupltype              = isotropic" +:+ LF +:+
  "tau_p                   = 2.0" +:+ LF +:+
  "compressibility         = 4.5e-5" +:+ LF +:+
  "ref_p                   = 1.0" +:+ LF +:+
  "refcoord_scaling        = com" +:+ LF +:+
  "coulombtype             = PME" +:+ LF +:+
  "rcoulomb                = 1.0" +:+ LF +:+
  "fourierspacing          = 0.12" +:+ LF +:+
  "pme_order               = 4" +:+ LF +:+
  "constraints             = h-bonds" +:+ LF.

Definition md_head : string :=
  "integrator              = md" +:+ LF +:+
  "dt                      = 0.001" +:+ LF +:+
  "nsteps                  = ".

Definition md_mid : string :=
  LF +:+
  "nstxout-compressed      = 5000" +:+ LF +:+
  "tcoupl                  = v-rescale" +:+ LF +:+
  "tc-grps                 = Protein Non-Protein" +:+ LF +:+
  "tau_t                   = 0.1     0.1" +:+ LF.

Definition md_tail : string :=
  "pcoupl                  = c-rescale" +:+ LF +:+
  "pcoupltype              = isotropic" +:+ LF +:+
  "tau_p                   = 2.0" +:+ LF +:+
  "ref_p                   = 1.0" +:+ LF +:+
  "compressibility         = 4.5e-5" +:+ LF +:+
  "coulombtype             = PME" +:+ LF +:+
  "rcoulomb                = 1.0" +:+ LF +:+
  "fourierspacing          = 0.12" +:+ LF +:+
  "pme_order               = 4" +:+ LF +:+
  "vdw-type                = Cut-off" +:+ LF +:+
  "rvdw                    = 1.0" +:+ LF +:+
  "compressed-x-grps       = Protein" +:+ LF.

(** The content generated under a given name, if any. *)
Definition file_content (temp : str_or_int) (steps : Z) (name : string) : option string :=
  (list_to_map (mdp_content temp steps) : gmap string string) !! name.



(** ** Floats and numerals *)

(** The float 50.0. *)
Definition fifty : spec_float := S754_finite false 7036874417766400 (-47).

(** The float 1000000.0. *)
Definition million : spec_float := S754_finite false 8589934592000000 (-33).

(** A shift record with no bit lost so far. *)
Definition exact (m : Z) : shr_record := {| shr_m := m; shr_r := false; shr_s := false |}.

(** The number read from the digits [d] after the number [acc]. *)
Fixpoint uint_acc (d : Decimal.uint) (acc : Z) : Z :=
  match d with
  | Decimal.Nil => acc
  | Decimal.D0 l => uint_acc l (10 * acc + 0)
  | Decimal.D1 l => uint_acc l (10 * acc + 1)
  | Decimal.D2 l => uint_acc l (10 * acc + 2)
  | Decimal.D3 l => uint_acc l (10 * acc + 3)
  | Decimal.D4 l => uint_acc l (10 * acc + 4)
  | Decimal.D5 l => uint_acc l (10 * acc + 5)
  | Decimal.D6 l => uint_acc l (10 * acc + 6)
  | Decimal.D7 l => uint_acc l (10 * acc + 7)
  | Decimal.D8 l => uint_acc l (10 * acc + 8)
  | Decimal.D9 l => uint_acc l (10 * acc + 9)
  end.

(** ** Engines for concrete runs *)

(** An engine in which only the solvation step fails, with status 2. *)
Definition solvate_fails (c : string) (i : option string) (fs : gmap string string)
    : N * gmap string string :=
  (if String.eqb c "gmx_mpi solvate -cp box.gro -cs spc216.gro -o solvated.gro -p topol.top"
   then 2%N else 0%N, fs).

(** An engine in which every command fails with status 2. *)
Definition always_two (c : string) (i : option string) (fs : gmap string string)
    : N * gmap string string := (2%N, fs).

(** ** Whole runs *)

(** The third prompt. *)
Definition pdb_prompt : string := "PDB file name (without .pdb): ".

(** The last line the script prints. *)
Definition completion_message (user_temp user_ns : str_or_int) : string :=
  LF +:+ "Simulation complete for " +:+ fmt user_ns +:+ "ns at " +:+ fmt user_temp +:+ "K!".

(** The log entries of commands that all returned 0. *)
Definition invoked_ok (cmds : list (string * option string)) : list event :=
  map (λ '(c, i), Invoked c i 0%N) cmds.

(** The command lines invoked according to a log, with their piped input. *)
Definition invocations (l : list event) : list (string * option string) :=
  omap (λ e, match e with Invoked c i _ => Some (c, i) | _ => None end) l.

(** The names of the generated files. *)
Definition mdp_names : list string :=
  ["ions.mdp"; "minim.mdp"; "nvt.mdp"; "npt.mdp"; "md.mdp"].

(** An engine in which every command succeeds and leaves the files alone. *)
Definition always_zero (c : string) (i : option string) (fs : gmap string string)
    : N * gmap string string := (0%N, fs).

(** The whole log of a run that completes. *)
Definition complete_log (t n p : string) (steps : Z) : list event :=
  [Prompted temperature_prompt; Prompted length_prompt]
    ++ mdp_events (or_default t 298) steps
    ++ [Prompted pdb_prompt]
    ++ invoked_ok (commands (PyText.strip p) (or_default n 50))
    ++ [Printed (completion_message (or_default t 298) (or_default n 50))].

(** The files left by a sequence of commands that stops at the first
    failure. *)
Fixpoint after_commands
    (engine : string → option string → gmap string string → N * gmap string string)
    (cmds : list (string * option string)) (fs : gmap string string)
    : gmap string string :=
  match cmds with
  | [] => fs
  | (c, i) :: rest =>
      let '(rc, fs') := engine c i fs in
      if (rc =? 0)%N then after_commands engine rest fs' else fs'
  end.

(** * Properties *)

(** Unfold the straight-line part of a computation. *)
Ltac run_prog :=
  repeat (progress
    (cbn;
     unfold mbind, mret, prog_bind, prog_ret, lift, raise, exit, print,
       write_file, emit, input)).

Lemma write_mdp_files_ok temp ns_length steps w :
  total_steps ns_length = inr steps →
  write_mdp_files temp ns_length w =
    (inr tt, {| stdin := stdin w;
                files := with_mdp_files temp steps (files w);
                log := log w ++ mdp_events temp steps |}).
Proof.
  intros Hsteps. unfold write_mdp_files, with_mdp_files, mdp_events. run_prog.
  rewrite Hsteps. run_prog. by rewrite <- !app_assoc.
Qed.

Lemma write_mdp_files_raises temp ns_length e w :
  total_steps ns_length = inl e →
  write_mdp_files temp ns_length w = (inl e, w).
Proof.
  intros Hsteps. unfold write_mdp_files. run_prog. by rewrite Hsteps.
Qed.

Lemma prepare_ok t n rest fs lg x steps :
  float (or_default n 50) = inr x →
  total_steps (NFloat x) = inr steps →
  prepare {| stdin := t :: n :: rest; files := fs; log := lg |} =
    (inr (or_default t 298, or_default n 50),
     {| stdin := rest;
        files := with_mdp_files (or_default t 298) steps fs;
        log := lg ++ [Prompted temperature_prompt; Prompted length_prompt]
                  ++ mdp_events (or_default t 298) steps |}).
Proof.
  intros Hx Hsteps. unfold prepare. run_prog. rewrite Hx.
  rewrite (write_mdp_files_ok _ _ steps) by done. run_prog.
  by rewrite <- !app_assoc.
Qed.

Lemma prepare_bad_length t n rest fs lg e :
  float (or_default n 50) = inl e →
  prepare {| stdin := t :: n :: rest; files := fs; log := lg |} =
    (inl e, {| stdin := rest; files := fs;
               log := lg ++ [Prompted temperature_prompt; Prompted length_prompt] |}).
Proof.
  intros He. unfold prepare. run_prog. rewrite He. by rewrite <- !app_assoc.
Qed.

(** ** Logs without a failed command *)

Lemma clean_app l1 l2 : clean l1 → clean l2 → clean (l1 ++ l2).
Proof.
  intros H1 H2 c i rc Hin. apply elem_of_app in Hin as [Hin|Hin]; eauto.
Qed.

Lemma clean_nil : clean [].
Proof. intros c i rc Hin. by apply elem_of_nil in Hin. Qed.

Lemma clean_prompt text l : clean l → clean (Prompted text :: l).
Proof. intros Hl c i rc Hin. apply elem_of_cons in Hin as [?|?]; [discriminate|eauto]. Qed.

Lemma clean_print text l : clean l → clean (Printed text :: l).
Proof. intros Hl c i rc Hin. apply elem_of_cons in Hin as [?|?]; [discriminate|eauto]. Qed.

Lemma clean_write name content l : clean l → clean (Written name content :: l).
Proof. intros Hl c i rc Hin. apply elem_of_cons in Hin as [?|?]; [discriminate|eauto]. Qed.

Lemma clean_run_ok c i l : clean l → clean (Invoked c i 0%N :: l).
Proof. intros Hl c' i' rc Hin. apply elem_of_cons in Hin as [?|?]; [congruence|eauto]. Qed.

Create HintDb clean.
#[local] Hint Resolve clean_app clean_nil clean_prompt clean_print clean_write
  clean_run_ok : clean.

Lemma clean_mdp_events temp steps : clean (mdp_events temp steps).
Proof. unfold mdp_events, mdp_content. cbn. auto 10 with clean. Qed.

#[local] Hint Resolve clean_mdp_events : clean.

(** [prepare] runs no command, whatever is typed. *)
Lemma prepare_clean w : clean (log w) → clean (log (prepare w).2).
Proof.
  intros Hw. destruct w as [[|t [|n rest]] fs lg]; cbn in Hw.
  - unfold prepare. run_prog. auto 10 with clean.
  - unfold prepare. run_prog. rewrite <- app_assoc. auto 10 with clean.
  - destruct (float (or_default n 50)) as [e|x] eqn:Hx.
    + rewrite (prepare_bad_length _ _ _ _ _ e) by done. cbn. auto 10 with clean.
    + destruct (total_steps (NFloat x)) as [e|steps] eqn:Hs.
      * unfold prepare. run_prog. rewrite Hx.
        rewrite (write_mdp_files_raises _ _ e) by done. cbn.
        rewrite <- app_assoc. auto 10 with clean.
      * rewrite (prepare_ok _ _ _ _ _ x steps) by done. cbn. auto 10 with clean.
Qed.

(** ** The command runner *)

Section Runner.

Variable engine : string → option string → gmap string string → N * gmap string string.

Lemma pipeline_run_all user_temp user_ns :
  pipeline engine user_temp user_ns =
    (p ← input "PDB file name (without .pdb): ";
     run_all engine (commands (PyText.strip p) user_ns)
       (print (LF +:+ "Simulation complete for " +:+ fmt user_ns +:+ "ns at "
                 +:+ fmt user_temp +:+ "K!"))).
Proof. reflexivity. Qed.

Lemma run_step_success c i w fs :
  engine c i (files w) = (0%N, fs) →
  run_step engine c i w =
    (inr tt, {| stdin := stdin w; files := fs; log := log w ++ [Invoked c i 0%N] |}).
Proof.
  intros He. unfold run_step, try_except, subprocess_run. by rewrite He.
Qed.

Lemma run_step_failure c i w rc fs :
  engine c i (files w) = (rc, fs) → rc ≠ 0%N →
  run_step engine c i w =
    (inl (SystemExit 1),
     {| stdin := stdin w; files := fs;
        log := log w ++ [Invoked c i rc; Printed (failure_message c rc)] |}).
Proof.
  intros He Hrc. unfold run_step, try_except, subprocess_run. rewrite He.
  apply N.eqb_neq in Hrc. rewrite Hrc. run_prog.
  by rewrite <- !app_assoc.
Qed.

Lemma run_all_outcome cmds k w :
  clean (log w) →
  (∀ w', clean (log w') → outcome_ok (k w')) →
  outcome_ok (run_all engine cmds k w).
Proof.
  revert w. induction cmds as [|[c i] cmds IH]; intros w Hw Hk; cbn [run_all].
  - by apply Hk.
  - unfold mbind, prog_bind.
    destruct (engine c i (files w)) as [rc fs] eqn:He.
    destruct (N.eq_dec rc 0%N) as [->|Hrc].
    + rewrite (run_step_success _ _ _ fs) by done.
      apply IH; [cbn; auto 10 with clean | done].
    + rewrite (run_step_failure _ _ _ rc fs) by done.
      right. split; [done|]. cbn. by exists (log w), c, i, rc.
Qed.

Lemma pipeline_outcome user_temp user_ns w :
  clean (log w) → outcome_ok (pipeline engine user_temp user_ns w).
Proof.
  intros Hw. rewrite pipeline_run_all. unfold mbind, prog_bind.
  destruct w as [[|p rest] fs lg]; cbn in Hw.
  - left. unfold input. cbn. auto 10 with clean.
  - unfold input. cbn [stdin files log]. apply run_all_outcome.
    + cbn. auto 10 with clean.
    + intros w' Hw'. left. unfold print, emit. cbn. auto 10 with clean.
Qed.

Lemma script_outcome w : clean (log w) → outcome_ok (script engine w).
Proof.
  intros Hw. unfold script, mbind, prog_bind.
  pose proof (prepare_clean w Hw) as Hp.
  destruct (prepare w) as [[e|[user_temp user_ns]] w'].
  - by left.
  - by apply pipeline_outcome.
Qed.

End Runner.

(** ** The pipeline stops at the first failure *)

Section Pipeline.

Variable engine : string → option string → gmap string string → N * gmap string string.

(** C2: whenever a command of the pipeline returns a non-zero status, that
    command is the last one invoked, the message about its failure is the last
    thing printed, no earlier command had failed, and the process ends with
    exit status 1. *)
Theorem failed_command_stops_pipeline lines fs c i rc :
  Invoked c i rc ∈ log (run engine lines fs).2 →
  rc ≠ 0%N →
  (run engine lines fs).1 = 1%N ∧
  ∃ pre, clean pre ∧
    log (run engine lines fs).2 = pre ++ [Invoked c i rc; Printed (failure_message c rc)].
Proof.
  intros Hin Hrc. unfold run in *.
  pose proof (script_outcome engine {| stdin := lines; files := fs; log := [] |}
                clean_nil) as Hout.
  destruct (script engine _) as [r w]. unfold outcome_ok in Hout. cbn in *.
  destruct Hout as [Hclean|[-> (pre & c' & i' & rc' & Hrc' & Hpre & Hlog)]].
  - by apply Hclean in Hin.
  - split; [done|]. rewrite Hlog in Hin.
    apply elem_of_app in Hin as [Hin|Hin].
    + by apply Hpre in Hin.
    + apply elem_of_cons in Hin as [Hin|Hin].
      * injection Hin as -> -> ->. by exists pre.
      * apply list_elem_of_singleton in Hin. discriminate.
Qed.

(** C6, as the code has it: when the command exits with a non-zero status
    the runner logs the invocation, prints the message that quotes this
    status, and ends the program with exit status 1, whatever the status of
    the command was. *)
Theorem failed_command_exits_with_status_one c i w rc fs :
  engine c i (files w) = (rc, fs) →
  rc ≠ 0%N →
  run_step engine c i w =
    (inl (SystemExit 1),
     {| stdin := stdin w; files := fs;
        log := log w ++ [Invoked c i rc; Printed (failure_message c rc)] |})
  ∧ exit_status (run_step engine c i w).1 = 1%N.
Proof.
  intros He Hrc. by rewrite (run_step_failure engine c i w rc fs).
Qed.

(** Every computation of the pipeline only adds to the log. *)
Lemma run_all_extends cmds k w :
  (∀ w', ∃ tail, log (k w').2 = log w' ++ tail) →
  ∃ tail, log (run_all engine cmds k w).2 = log w ++ tail.
Proof.
  intros Hk. revert w. induction cmds as [|[c i] cmds IH]; intros w; cbn [run_all].
  - apply Hk.
  - unfold mbind, prog_bind.
    destruct (engine c i (files w)) as [rc fs] eqn:He.
    destruct (N.eq_dec rc 0%N) as [->|Hrc].
    + rewrite (run_step_success _ _ _ _ fs) by done.
      destruct (IH {| stdin := stdin w; files := fs; log := log w ++ [Invoked c i 0%N] |})
        as [tail Htail].
      exists (Invoked c i 0%N :: tail). rewrite Htail. cbn. by rewrite <- app_assoc.
    + rewrite (run_step_failure _ _ _ _ rc fs) by done. cbn. eauto.
Qed.

(** The first command of a sequence is always invoked. *)
Lemma run_all_first c i cmds k w :
  (∀ w', ∃ tail, log (k w').2 = log w' ++ tail) →
  ∃ rc tail, log (run_all engine ((c, i) :: cmds) k w).2 = log w ++ Invoked c i rc :: tail.
Proof.
  intros Hk. cbn [run_all]. unfold mbind, prog_bind.
  destruct (engine c i (files w)) as [rc fs] eqn:He. exists rc.
  destruct (N.eq_dec rc 0%N) as [->|Hrc].
  - rewrite (run_step_success _ _ _ _ fs) by done.
    destruct (run_all_extends cmds k
                {| stdin := stdin w; files := fs; log := log w ++ [Invoked c i 0%N] |} Hk)
      as [tail Htail].
    exists tail. rewrite Htail. cbn. by rewrite <- app_assoc.
  - rewrite (run_step_failure _ _ _ _ rc fs) by done. cbn. eauto.
Qed.

Lemma pipeline_first_command user_temp user_ns p rest fs lg :
  ∃ rc tail,
    log (pipeline engine user_temp user_ns
           {| stdin := p :: rest; files := fs; log := lg |}).2 =
      lg ++ Prompted "PDB file name (without .pdb): "
         :: Invoked ("gmx_mpi pdb2gmx -f " +:+ PyText.strip p
                   +:+ ".pdb -o protein_processed.gro -water tips3p -ignh")
                (Some "8") rc
         :: tail.
Proof.
  rewrite pipeline_run_all. unfold mbind at 1, prog_bind at 1, input.
  cbn [stdin files log]. unfold commands.
  match goal with |- context [run_all engine (_ :: ?cs) ?k ?w] =>
    destruct (run_all_first ("gmx_mpi pdb2gmx -f " +:+ PyText.strip p
                +:+ ".pdb -o protein_processed.gro -water tips3p -ignh")
                (Some "8") cs k w) as (rc & tail & Hlog) end.
  { intros w'. eexists. unfold print, emit. cbn. reflexivity. }
  exists rc, tail. rewrite Hlog. cbn. by rewrite <- app_assoc.
Qed.

(** C8: the first command run after the structure name has been read is the
    conversion step; it reads the stripped name followed by [.pdb] and always
    writes [protein_processed.gro]; for the name [abc] it reads [abc.pdb]. *)
Theorem conversion_command_for_abc user_temp user_ns rest fs lg :
  (∀ p, ∃ rc tail,
     log (pipeline engine user_temp user_ns
            {| stdin := p :: rest; files := fs; log := lg |}).2 =
       lg ++ Prompted "PDB file name (without .pdb): "
          :: Invoked ("gmx_mpi pdb2gmx -f " +:+ PyText.strip p
                    +:+ ".pdb -o protein_processed.gro -water tips3p -ignh")
                 (Some "8") rc
          :: tail)
  ∧ ∃ rc tail,
     log (pipeline engine user_temp user_ns
            {| stdin := "abc" :: rest; files := fs; log := lg |}).2 =
       lg ++ Prompted "PDB file name (without .pdb): "
          :: Invoked "gmx_mpi pdb2gmx -f abc.pdb -o protein_processed.gro -water tips3p -ignh"
                 (Some "8") rc
          :: tail.
Proof.
  split.
  - intros p. apply pipeline_first_command.
  - apply (pipeline_first_command user_temp user_ns "abc").
Qed.

(** C9: when the line typed for the length is not empty and [float] rejects
    it, the script ends with an uncaught [ValueError] (exit status 1) right
    after the two prompts: the working directory is unchanged, nothing is
    written and no command is run. *)
Theorem unparseable_length_writes_nothing t n rest fs :
  n ≠ "" →
  PyFloat.of_string n = None →
  script engine {| stdin := t :: n :: rest; files := fs; log := [] |} =
    (inl ValueError,
     {| stdin := rest; files := fs;
        log := [Prompted temperature_prompt; Prompted length_prompt] |})
  ∧ run engine (t :: n :: rest) fs =
    (1%N, {| stdin := rest; files := fs;
             log := [Prompted temperature_prompt; Prompted length_prompt] |}).
Proof.
  intros Hne Hbad.
  assert (Hfloat : float (or_default n 50) = inl ValueError).
  { destruct n; [done|]. cbn. by rewrite Hbad. }
  unfold run, script, mbind, prog_bind.
  by rewrite (prepare_bad_length _ _ _ _ _ ValueError).
Qed.

End Pipeline.

(** ** The shape of the generated files *)

Lemma append_assoc (s1 s2 s3 : string) : (s1 +:+ s2) +:+ s3 = s1 +:+ s2 +:+ s3.
Proof.
  induction s1 as [|a s1 IH]; [done|].
  change (String a ((s1 +:+ s2) +:+ s3) = String a (s1 +:+ s2 +:+ s3)).
  by rewrite IH.
Qed.

Lemma nvt_mdp_shape temp : nvt_mdp temp = nvt_head +:+ ref_t_line temp +:+ nvt_tail.
Proof. unfold ref_t_line. by rewrite !append_assoc. Qed.

Lemma npt_mdp_shape temp : npt_mdp temp = npt_head +:+ ref_t_line temp +:+ npt_tail.
Proof. unfold ref_t_line. by rewrite !append_assoc. Qed.

Lemma md_mdp_shape temp steps :
  md_mdp temp steps =
    md_head +:+ PyText.str_of_int steps +:+ md_mid +:+ ref_t_line temp +:+ md_tail.
Proof. unfold ref_t_line. by rewrite !append_assoc. Qed.

Lemma with_mdp_files_lookup temp steps fs name :
  with_mdp_files temp steps fs !! name =
    match file_content temp steps name with
    | Some content => Some content
    | None => fs !! name
    end.
Proof.
  unfold with_mdp_files, file_content, mdp_content. cbn [list_to_map foldr fst snd].
  rewrite !lookup_insert.
  repeat case_decide; simplify_eq; rewrite ?lookup_empty; done.
Qed.

Lemma with_mdp_files_nvt temp steps fs :
  with_mdp_files temp steps fs !! "nvt.mdp" = Some (nvt_mdp temp).
Proof. by rewrite with_mdp_files_lookup. Qed.

Lemma with_mdp_files_npt temp steps fs :
  with_mdp_files temp steps fs !! "npt.mdp" = Some (npt_mdp temp).
Proof. by rewrite with_mdp_files_lookup. Qed.

Lemma with_mdp_files_md temp steps fs :
  with_mdp_files temp steps fs !! "md.mdp" = Some (md_mdp temp steps).
Proof. by rewrite with_mdp_files_lookup. Qed.

(** [file_content] by cases on the name. *)
Lemma file_content_cases temp steps name :
  file_content temp steps name =
    if decide (name = "ions.mdp") then Some ions_mdp
    else if decide (name = "minim.mdp") then Some minim_mdp
    else if decide (name = "nvt.mdp") then Some (nvt_mdp temp)
    else if decide (name = "npt.mdp") then Some (npt_mdp temp)
    else if decide (name = "md.mdp") then Some (md_mdp temp steps)
    else None.
Proof.
  unfold file_content, mdp_content. cbn [list_to_map foldr fst snd].
  rewrite !lookup_insert.
  repeat case_decide; simplify_eq; rewrite ?lookup_empty; done.
Qed.









(** ** Exact arithmetic on whole numbers *)

Module FloatFacts.

Import PyText PyFloat.

(** *** Rounding a mantissa that already fits *)

Lemma digits2_pos_size p : digits2_pos p = Pos.size p.
Proof. induction p as [p IH|p IH|]; cbn; by rewrite ?IH. Qed.

Lemma Zdigits2_log2 z : 0 < z → Zdigits2 z = Z.log2 z + 1.
Proof.
  destruct z as [|p|p]; [lia| |lia]. intros _.
  destruct p as [p|p|]; cbn; rewrite ?digits2_pos_size; lia.
Qed.

Lemma iter_pos_nat {A} (f : A → A) p x :
  SpecFloat.iter_pos f p x = Nat.iter (Pos.to_nat p) f x.
Proof.
  revert x. induction p as [p IH|p IH|]; intros x; cbn [SpecFloat.iter_pos].
  - rewrite !IH, Pos2Nat.inj_xI. cbn [Nat.iter].
    rewrite <- Nat.iter_succ_r, <- Nat.iter_add. f_equal. lia.
  - rewrite !IH, Pos2Nat.inj_xO, <- Nat.iter_add. f_equal. lia.
  - reflexivity.
Qed.

Lemma shr_1_double m : 0 < m → shr_1 (exact (2 * m)) = exact m.
Proof. destruct m as [|p|p]; [lia| |lia]. reflexivity. Qed.

Lemma shr_exact_nat n m : 0 < m → Nat.iter n shr_1 (exact (m * 2 ^ Z.of_nat n)) = exact m.
Proof.
  intros Hm. induction n as [|n IH].
  - cbn. f_equal. lia.
  - rewrite Nat.iter_succ_r.
    replace (m * 2 ^ Z.of_nat (S n)) with (2 * (m * 2 ^ Z.of_nat n)).
    + rewrite shr_1_double by lia. apply IH.
    + rewrite Nat2Z.inj_succ, Z.pow_succ_r by lia. lia.
Qed.

Lemma shr_exact m e p :
  0 < m → 0 ≤ p → shr (exact (m * 2 ^ p)) e p = (exact m, e + p).
Proof.
  intros Hm Hp. destruct p as [|p|p]; [| |lia].
  - cbn. rewrite Z.mul_1_r, Z.add_0_r. reflexivity.
  - unfold shr. rewrite iter_pos_nat.
    rewrite <- (positive_nat_Z p) at 1. by rewrite shr_exact_nat.
Qed.

Lemma fexp_normal d : -1021 ≤ d → fexp prec emax d = d - 53.
Proof. unfold fexp, emin, prec, emax. lia. Qed.

(** A 53-bit mantissa followed by [p] zero bits is rounded to itself. *)
Lemma binary_round_aux_exact s m p e :
  Z.log2 (Zpos m) = 52 → 0 ≤ p → -1074 ≤ e + p ≤ 971 →
  binary_round_aux prec emax s (Zpos m * 2 ^ p) e loc_Exact = S754_finite s m (e + p).
Proof.
  intros Hm Hp He.
  assert (Hpow : 0 < 2 ^ p) by (apply Z.pow_pos_nonneg; lia).
  unfold binary_round_aux, shr_fexp.
  rewrite Zdigits2_log2 by lia.
  rewrite Z.log2_mul_pow2, Hm by lia.
  rewrite fexp_normal by lia.
  replace (p + 52 + 1 + e - 53 - e) with p by lia.
  change (shr_record_of_loc (Zpos m * 2 ^ p) loc_Exact) with (exact (Zpos m * 2 ^ p)).
  rewrite shr_exact by lia.
  cbn [exact shr_m loc_of_shr_record round_nearest_even shr_record_of_loc].
  rewrite Zdigits2_log2, Hm by lia.
  rewrite fexp_normal by lia.
  replace (52 + 1 + (e + p) - 53 - (e + p)) with 0 by lia.
  cbn [shr shr_m].
  replace (e + p <=? emax - prec) with true; [done|].
  symmetry. apply Z.leb_le. unfold emax, prec. lia.
Qed.

(** *** The float of a whole number, and its product with a million *)

Lemma iter_xO_pow n d : Zpos (Pos.iter xO n d) = Zpos n * 2 ^ Zpos d.
Proof.
  induction d as [|d IH] using Pos.peano_ind.
  - cbn. lia.
  - rewrite Pos.iter_succ, Pos2Z.inj_xO, IH, Pos2Z.inj_succ, Z.pow_succ_r by lia. lia.
Qed.

Lemma shl_align_spec mx ex ex' :
  ex' ≤ ex → shl_align mx ex ex' = (Z.to_pos (Zpos mx * 2 ^ (ex - ex')), ex').
Proof.
  intros Hle. unfold shl_align. destruct (ex' - ex) as [|d|d] eqn:Hd; [|lia|].
  - replace (ex - ex') with 0 by lia. rewrite Z.mul_1_r. cbn. f_equal. lia.
  - replace (ex - ex') with (Zpos d) by lia. by rewrite <- iter_xO_pow.
Qed.

(** The float of a positive integer of at most 53 bits: the integer itself,
    shifted to fill the mantissa. *)
Lemma binary_round_int s n :
  Z.log2 (Zpos n) ≤ 52 →
  binary_round prec emax s n 0 =
    S754_finite s (Z.to_pos (Zpos n * 2 ^ (52 - Z.log2 (Zpos n)))) (Z.log2 (Zpos n) - 52).
Proof.
  intros Hl. pose proof (Z.log2_nonneg (Zpos n)) as Hl0.
  unfold binary_round.
  change (Zpos (digits2_pos n)) with (Zdigits2 (Zpos n)).
  rewrite Zdigits2_log2, fexp_normal by lia.
  rewrite shl_align_spec by lia.
  replace (0 - (Z.log2 (Zpos n) + 1 + 0 - 53)) with (52 - Z.log2 (Zpos n)) by lia.
  set (m := Z.to_pos (Zpos n * 2 ^ (52 - Z.log2 (Zpos n)))).
  assert (Hm : Zpos m = Zpos n * 2 ^ (52 - Z.log2 (Zpos n))).
  { unfold m. rewrite Z2Pos.id; [done|].
    apply Z.mul_pos_pos; [lia|]. apply Z.pow_pos_nonneg; lia. }
  rewrite <- (Z.mul_1_r (Zpos m)). change 1 with (2 ^ 0) at 1.
  rewrite binary_round_aux_exact; [f_equal; lia| |lia|lia].
  rewrite Hm, Z.log2_mul_pow2 by lia. lia.
Qed.

Lemma of_int_million : of_int 1000000 = inr million.
Proof. reflexivity. Qed.

(** Multiplying the float of a whole number by a million, and truncating,
    gives the exact product as long as it fits into 59 bits. *)
Lemma steps_of_whole_number s n :
  Zpos n ≤ 576460752303 →
  to_int (mul (binary_round prec emax s n 0) million) =
    inr (cond_Zopp s (Zpos n * 1000000)).
Proof.
  intros Hn.
  set (l := Z.log2 (Zpos n)). set (lk := Z.log2 (Zpos n * 1000000)).
  pose proof (Z.log2_nonneg (Zpos n)) as Hl0. fold l in Hl0.
  assert (Hl : l ≤ 39).
  { apply Z.lt_succ_r. apply Z.log2_lt_pow2; [lia|]. change (2 ^ Z.succ 39) with 1099511627776. lia. }
  assert (Hlk : lk ≤ 58).
  { apply Z.lt_succ_r. apply Z.log2_lt_pow2; [lia|].
    change (2 ^ Z.succ 58) with 576460752303423488. lia. }
  assert (Hlk' : l + 19 ≤ lk).
  { apply Z.log2_le_pow2; [lia|]. rewrite Z.pow_add_r by lia.
    pose proof (Z.log2_spec (Zpos n) ltac:(lia)) as [Hlo _]. fold l in Hlo.
    change (2 ^ 19) with 524288. nia. }
  assert (Hq : Z.log2 (Zpos n * 15625) = lk - 6).
  { unfold lk. replace (Zpos n * 1000000) with (Zpos n * 15625 * 2 ^ 6) by (change (2 ^ 6) with 64; lia).
    rewrite Z.log2_mul_pow2 by lia. lia. }
  rewrite binary_round_int by (fold l; lia). fold l.
  unfold mul, million, SFmul. rewrite xorb_false_r.
  set (R := Z.to_pos (Zpos n * 15625 * 2 ^ (58 - lk))).
  assert (HR : Zpos R = Zpos n * 15625 * 2 ^ (58 - lk)).
  { unfold R. rewrite Z2Pos.id; [done|].
    apply Z.mul_pos_pos; [lia|]. apply Z.pow_pos_nonneg; lia. }
  assert (Hprod : Zpos (Z.to_pos (Zpos n * 2 ^ (52 - l)) * 8589934592000000) =
                  Zpos R * 2 ^ (33 - l + lk)).
  { rewrite Pos2Z.inj_mul, Z2Pos.id
      by (apply Z.mul_pos_pos; [lia|]; apply Z.pow_pos_nonneg; lia).
    rewrite HR. change (Zpos 8589934592000000) with (15625 * 2 ^ 39).
    replace (Zpos n * 2 ^ (52 - l) * (15625 * 2 ^ 39))
      with (Zpos n * 15625 * (2 ^ (52 - l) * 2 ^ 39)) by lia.
    transitivity (Zpos n * 15625 * 2 ^ (91 - l)).
    - rewrite <- Z.pow_add_r by lia. do 2 f_equal. lia.
    - rewrite <- (Z.mul_assoc (Zpos n * 15625)), <- Z.pow_add_r by lia.
      do 2 f_equal. lia. }
  rewrite Hprod, binary_round_aux_exact; [| |lia|lia].
  2:{ rewrite HR, Z.log2_mul_pow2, Hq by lia. lia. }
  unfold to_int. do 2 f_equal. rewrite HR.
  replace (l - 52 + -33 + (33 - l + lk)) with (lk - 52) by lia.
  destruct (Z.le_gt_cases 52 lk) as [Hge|Hlt].
  - rewrite Z.shiftl_mul_pow2 by lia.
    rewrite <- Z.mul_assoc, <- Z.pow_add_r by lia.
    replace (58 - lk + (lk - 52)) with 6 by lia. change (2 ^ 6) with 64. lia.
  - rewrite Z.shiftl_div_pow2 by lia.
    replace (58 - lk) with (6 + - (lk - 52)) by lia.
    rewrite Z.pow_add_r, Z.mul_assoc, Z.div_mul by lia.
    change (2 ^ 6) with 64. lia.
Qed.

(** *** Reading back a printed integer *)

Lemma scan_digits_uint d acc cnt :
  scan_digits (NilEmpty.string_of_uint d) acc cnt =
    (uint_acc d acc, cnt + Z.of_nat (Decimal.nb_digits d), EmptyString).
Proof.
  revert acc cnt. induction d as [|d IH|d IH|d IH|d IH|d IH|d IH|d IH|d IH|d IH|d IH];
    intros acc cnt; cbn [NilEmpty.string_of_uint scan_digits uint_acc Decimal.nb_digits].
  { do 2 f_equal. lia. }
  all: change (isdigit _) with true; cbn iota; rewrite IH; do 2 f_equal;
    rewrite ?Nat2Z.inj_succ; unfold digit_value; cbn; lia.
Qed.

Lemma uint_acc_pos d acc : uint_acc d (Zpos acc) = Zpos (Pos.of_uint_acc d acc).
Proof.
  revert acc. induction d as [|d IH|d IH|d IH|d IH|d IH|d IH|d IH|d IH|d IH|d IH];
    intros acc; cbn [uint_acc Pos.of_uint_acc].
  { done. }
  all: rewrite <- IH; f_equal; lia.
Qed.

Lemma uint_acc_0 d : uint_acc d 0 = Z.of_N (Pos.of_uint d).
Proof.
  induction d as [|d IH|d IH|d IH|d IH|d IH|d IH|d IH|d IH|d IH|d IH];
    cbn [uint_acc Pos.of_uint].
  { done. }
  { exact IH. }
  all: cbn [Z.mul Z.add Z.of_N]; apply uint_acc_pos.
Qed.

Lemma uint_acc_to_uint p : uint_acc (Pos.to_uint p) 0 = Zpos p.
Proof. by rewrite uint_acc_0, DecimalPos.Unsigned.of_to. Qed.

Lemma lstrip_uint d :
  lstrip_by isspace_c (NilEmpty.string_of_uint d) = NilEmpty.string_of_uint d.
Proof. by destruct d. Qed.

Lemma rstrip_uint d :
  rstrip_by isspace_c (NilEmpty.string_of_uint d) = NilEmpty.string_of_uint d.
Proof.
  induction d as [|d IH|d IH|d IH|d IH|d IH|d IH|d IH|d IH|d IH|d IH];
    cbn [NilEmpty.string_of_uint rstrip_by]; [done|..];
    rewrite IH; by destruct (NilEmpty.string_of_uint d).
Qed.

Lemma remove_underscores_uint prev d :
  Ascii.eqb prev "_" = false →
  remove_underscores prev (NilEmpty.string_of_uint d) = Some (NilEmpty.string_of_uint d).
Proof.
  revert prev. induction d as [|d IH|d IH|d IH|d IH|d IH|d IH|d IH|d IH|d IH|d IH];
    intros prev Hprev; cbn [NilEmpty.string_of_uint remove_underscores].
  { by rewrite Hprev. }
  all: change (Ascii.eqb _ "_") with false at 1; cbn iota; rewrite Hprev;
    cbn [andb]; by rewrite IH.
Qed.

Lemma nb_digits_pos d : d ≠ Decimal.Nil → (0 < Decimal.nb_digits d)%nat.
Proof. destruct d; [done|..]; cbn; lia. Qed.

Lemma parse_decimal_uint d :
  d ≠ Decimal.Nil →
  parse_decimal (NilEmpty.string_of_uint d) = Some (false, uint_acc d 0, 0)
  ∧ parse_decimal (String "-" (NilEmpty.string_of_uint d)) = Some (true, uint_acc d 0, 0).
Proof.
  intros Hd. pose proof (nb_digits_pos d Hd) as Hn. unfold parse_decimal.
  assert (Hsign : scan_sign (NilEmpty.string_of_uint d) = (false, NilEmpty.string_of_uint d))
    by (by destruct d).
  rewrite Hsign. change (scan_sign (String "-" ?s)) with (true, s).
  cbn iota. rewrite scan_digits_uint. cbn iota.
  replace (0 + Z.of_nat (Decimal.nb_digits d) + 0 =? 0) with false
    by (symmetry; apply Z.eqb_neq; lia).
  done.
Qed.

(** [float] reads the decimal numeral of a positive integer as the float
    nearest to it, with the sign written in front. *)
Lemma of_string_numeral p :
  of_string (NilEmpty.string_of_uint (Pos.to_uint p)) =
    Some (binary_round prec emax false p 0)
  ∧ of_string (String "-" (NilEmpty.string_of_uint (Pos.to_uint p))) =
    Some (binary_round prec emax true p 0).
Proof.
  pose proof (DecimalPos.Unsigned.to_uint_nonnil p) as Hd.
  destruct (parse_decimal_uint _ Hd) as [Hpos Hneg].
  unfold of_string. split.
  - rewrite lstrip_uint, rstrip_uint, remove_underscores_uint by done.
    rewrite Hpos. unfold of_decimal. rewrite uint_acc_to_uint.
    change (0 <=? 0) with true. cbn iota. change (10 ^ 0) with 1. by rewrite Z.mul_1_r.
  - change (lstrip_by isspace_c (String "-" ?s)) with (String "-" s).
    assert (Hr : ∀ s', rstrip_by isspace_c s' = s' →
                       rstrip_by isspace_c (String "-" s') = String "-" s').
    { intros s' Hs'. cbn [rstrip_by]. rewrite Hs'. by destruct s'. }
    rewrite Hr by apply rstrip_uint.
    cbn [remove_underscores]. change (Ascii.eqb "-" "_") with false. cbn iota.
    change (Ascii.eqb "000" "_" && _) with false. cbn iota.
    rewrite remove_underscores_uint by done. cbn [option_map].
    rewrite Hneg. unfold of_decimal. rewrite uint_acc_to_uint.
    change (0 <=? 0) with true. cbn iota. change (10 ^ 0) with 1. by rewrite Z.mul_1_r.
Qed.

Lemma str_of_int_pos p :
  str_of_int (Zpos p) = NilEmpty.string_of_uint (Pos.to_uint p).
Proof.
  unfold str_of_int. cbn [Z.to_int NilZero.string_of_int NilZero.string_of_uint].
  pose proof (DecimalPos.Unsigned.to_uint_nonnil p). by destruct (Pos.to_uint p).
Qed.

Lemma str_of_int_neg p :
  str_of_int (Zneg p) = String "-" (NilEmpty.string_of_uint (Pos.to_uint p)).
Proof.
  unfold str_of_int. cbn [Z.to_int NilZero.string_of_int NilZero.string_of_uint].
  pose proof (DecimalPos.Unsigned.to_uint_nonnil p). by destruct (Pos.to_uint p).
Qed.

Lemma str_of_int_nonempty n : str_of_int n ≠ "".
Proof.
  destruct n as [|p|p]; [done| |by rewrite str_of_int_neg].
  rewrite str_of_int_pos. pose proof (DecimalPos.Unsigned.to_uint_nonnil p).
  by destruct (Pos.to_uint p).
Qed.

(** The script's reading of a whole number of nanoseconds. *)
Lemma steps_of_numeral n :
  -576460752303 ≤ n ≤ 576460752303 →
  ∃ x, float (PStr (str_of_int n)) = inr x ∧ total_steps (NFloat x) = inr (n * 1000000).
Proof.
  intros Hn. destruct n as [|p|p].
  - by exists (S754_zero false).
  - exists (binary_round prec emax false p 0). split.
    + unfold float. rewrite str_of_int_pos.
      by rewrite (proj1 (of_string_numeral p)).
    + unfold total_steps. rewrite of_int_million.
      rewrite steps_of_whole_number by lia. done.
  - exists (binary_round prec emax true p 0). split.
    + unfold float. rewrite str_of_int_neg.
      by rewrite (proj2 (of_string_numeral p)).
    + unfold total_steps. rewrite of_int_million.
      rewrite steps_of_whole_number by lia. done.
Qed.
End FloatFacts.

(** ** The step count of the production run *)

(** C1, as stated, fails: for the length [0.0000015], that is 15 x 10^-7,
    the step count written is 1, while the length times 1,000,000 is 1.5; for
    the length 10^17 the step count written differs from 10^23. *)
Lemma nsteps_not_always_exact :
  PyFloat.parse_decimal "0.0000015" = Some (false, 15, -7)
  ∧ files (prepare {| stdin := [""; "0.0000015"]; files := ∅; log := [] |}).2
      !! "md.mdp" = Some (md_mdp (PInt 298) 1)
  ∧ 1 * 10 ^ 7 ≠ 15 * 1000000
  ∧ files (prepare {| stdin := [""; "100000000000000000"]; files := ∅; log := [] |}).2
      !! "md.mdp" = Some (md_mdp (PInt 298) 99999999999999991611392)
  ∧ 99999999999999991611392 ≠ 100000000000000000 * 1000000.
Proof.
  split; [reflexivity|]. split; [by vm_compute|]. split; [discriminate|].
  split; [by vm_compute|discriminate].
Qed.

(** C1, as the code has it: when the length typed is the decimal numeral of
    a whole number [n] of at most 576,460,752,303 in absolute value, the
    preparation succeeds whatever is typed for the temperature, and the
    production file on disk carries [nsteps] equal to [n * 1000000]
    exactly. *)
Theorem whole_number_length_gives_exact_nsteps t n rest fs lg :
  -576460752303 ≤ n ≤ 576460752303 →
  ∃ w',
    prepare {| stdin := t :: PyText.str_of_int n :: rest; files := fs; log := lg |} =
      (inr (or_default t 298, PStr (PyText.str_of_int n)), w')
    ∧ files w' !! "md.mdp" = Some (md_mdp (or_default t 298) (n * 1000000))
    ∧ md_mdp (or_default t 298) (n * 1000000) =
        md_head +:+ PyText.str_of_int (n * 1000000) +:+ md_mid
          +:+ ref_t_line (or_default t 298) +:+ md_tail.
Proof.
  intros Hn. destruct (FloatFacts.steps_of_numeral n Hn) as (x & Hx & Hsteps).
  assert (Hdef : or_default (PyText.str_of_int n) 50 = PStr (PyText.str_of_int n)).
  { pose proof (FloatFacts.str_of_int_nonempty n).
    by destruct (PyText.str_of_int n). }
  eexists. split; [|split].
  - rewrite (prepare_ok t _ rest fs lg x (n * 1000000)) by (rewrite ?Hdef; done).
    by rewrite Hdef.
  - cbn [files]. apply with_mdp_files_md.
  - apply md_mdp_shape.
Qed.

(** The bound is the largest one: the next odd length is off by 64 steps. *)
Example bound_is_sharp :
  ∃ x, float (PStr "576460752305") = inr x
       ∧ total_steps (NFloat x) = inr 576460752304999936.
Proof. eexists. split; reflexivity. Qed.

(** Outside whole numbers the product is truncated after rounding: for
    [2.01] one step is missing. *)
Example truncation_at_2_01 :
  ∃ x, float (PStr "2.01") = inr x ∧ total_steps (NFloat x) = inr 2009999.
Proof. eexists. split; reflexivity. Qed.

(** ** Defaults, substitution and regeneration *)

(** C3: an empty line at the temperature prompt makes the script use 298:
    whenever the length typed is usable, the files are generated for the
    integer 298, which is written as [298]; an empty line at the length
    prompt makes it use 50: the integer 50 becomes the float 50.0, the files
    are generated with 50000000 steps, and the length is written as [50]. *)
Theorem blank_prompts_use_defaults rest fs lg :
  (∀ n x steps,
     float (or_default n 50) = inr x →
     total_steps (NFloat x) = inr steps →
     prepare {| stdin := "" :: n :: rest; files := fs; log := lg |} =
       (inr (PInt 298, or_default n 50),
        {| stdin := rest;
           files := with_mdp_files (PInt 298) steps fs;
           log := lg ++ [Prompted temperature_prompt; Prompted length_prompt]
                     ++ mdp_events (PInt 298) steps |}))
  ∧ ref_t_line (PInt 298) = "ref_t                   = 298     298" +:+ LF
  ∧ (∀ t,
     prepare {| stdin := t :: "" :: rest; files := fs; log := lg |} =
       (inr (or_default t 298, PInt 50),
        {| stdin := rest;
           files := with_mdp_files (or_default t 298) 50000000 fs;
           log := lg ++ [Prompted temperature_prompt; Prompted length_prompt]
                     ++ mdp_events (or_default t 298) 50000000 |}))
  ∧ float (PInt 50) = inr fifty
  ∧ total_steps (NFloat fifty) = inr 50000000
  ∧ fmt (PInt 50) = "50".
Proof.
  split; [|split; [|split; [|split; [|split]]]]; try reflexivity.
  - intros n x steps Hx Hsteps. by apply (prepare_ok "" n rest fs lg x steps).
  - intros t. by apply (prepare_ok t "" rest fs lg fifty 50000000).
Qed.

(** C4: after a generation that completes, each of the two equilibration
    files on disk, [nvt.mdp] and [npt.mdp], consists of fixed text around one
    [ref_t] line on which the supplied temperature stands twice: the very
    text [T] when the temperature is a string, the decimal numeral of [n]
    when it is the integer [n]. *)
Theorem equilibration_ref_t_both_equal_temp ns_length steps w :
  total_steps ns_length = inr steps →
  (∀ T,
     files (write_mdp_files (PStr T) ns_length w).2 !! "nvt.mdp" =
       Some (nvt_head
               +:+ ("ref_t                   = " +:+ T +:+ "     " +:+ T +:+ LF)
               +:+ nvt_tail)
     ∧ files (write_mdp_files (PStr T) ns_length w).2 !! "npt.mdp" =
       Some (npt_head
               +:+ ("ref_t                   = " +:+ T +:+ "     " +:+ T +:+ LF)
               +:+ npt_tail))
  ∧ (∀ n,
     files (write_mdp_files (PInt n) ns_length w).2 !! "nvt.mdp" =
       Some (nvt_head
               +:+ ("ref_t                   = " +:+ PyText.str_of_int n +:+ "     "
                      +:+ PyText.str_of_int n +:+ LF)
               +:+ nvt_tail)
     ∧ files (write_mdp_files (PInt n) ns_length w).2 !! "npt.mdp" =
       Some (npt_head
               +:+ ("ref_t                   = " +:+ PyText.str_of_int n +:+ "     "
                      +:+ PyText.str_of_int n +:+ LF)
               +:+ npt_tail)).
Proof.
  intros Hsteps. split.
  - intros T. rewrite (write_mdp_files_ok _ _ steps) by done. cbn [snd files].
    rewrite with_mdp_files_nvt, with_mdp_files_npt.
    by rewrite nvt_mdp_shape, npt_mdp_shape.
  - intros n. rewrite (write_mdp_files_ok _ _ steps) by done. cbn [snd files].
    rewrite with_mdp_files_nvt, with_mdp_files_npt.
    by rewrite nvt_mdp_shape, npt_mdp_shape.
Qed.

(** C7: a generation that completes after an earlier one leaves the working
    directory exactly as it would have left it without the earlier one, and
    each of the five files, [ions.mdp], [minim.mdp], [nvt.mdp], [npt.mdp] and
    [md.mdp], holds the text that follows from the latest temperature and
    step count alone: nothing of the earlier parameters remains. *)
Theorem regeneration_overwrites temp1 ns1 temp2 ns2 steps2 w :
  total_steps ns2 = inr steps2 →
  let shown := match temp2 with PStr T => T | PInt n => PyText.str_of_int n end in
  let after := files (write_mdp_files temp2 ns2 (write_mdp_files temp1 ns1 w).2).2 in
  after = files (write_mdp_files temp2 ns2 w).2
  ∧ after !! "ions.mdp" = Some ("integrator = steep" +:+ LF)
  ∧ after !! "minim.mdp" =
      Some ("integrator  = steep" +:+ LF +:+
            "emtol       = 1000.0" +:+ LF +:+
            "emstep      = 0.01" +:+ LF +:+
            "nsteps      = 50000" +:+ LF +:+
            "nstlist     = 1" +:+ LF +:+
            "cutoff-scheme = Verlet" +:+ LF +:+
            "ns_type     = grid" +:+ LF +:+
            "coulombtype = PME" +:+ LF +:+
            "rcoulomb    = 1.0" +:+ LF +:+
            "rvdw        = 1.0" +:+ LF +:+
            "pbc         = xyz" +:+ LF)
  ∧ after !! "nvt.mdp" =
      Some (nvt_head
              +:+ ("ref_t                   = " +:+ shown +:+ "     " +:+ shown +:+ LF)
              +:+ nvt_tail)
  ∧ after !! "npt.mdp" =
      Some (npt_head
              +:+ ("ref_t                   = " +:+ shown +:+ "     " +:+ shown +:+ LF)
              +:+ npt_tail)
  ∧ after !! "md.mdp" =
      Some (md_head +:+ PyText.str_of_int steps2 +:+ md_mid
              +:+ ("ref_t                   = " +:+ shown +:+ "     " +:+ shown +:+ LF)
              +:+ md_tail).
Proof.
  intros Hsteps2 shown after.
  assert (Hsame : after = files (write_mdp_files temp2 ns2 w).2).
  { unfold after. rewrite !(write_mdp_files_ok temp2 ns2 steps2) by done.
    cbn [snd files].
    destruct (total_steps ns1) as [e|steps1] eqn:Hsteps1.
    - by rewrite (write_mdp_files_raises _ _ e).
    - rewrite (write_mdp_files_ok _ _ steps1) by done. cbn [snd files].
      apply map_eq. intros name. rewrite !with_mdp_files_lookup.
      by destruct (file_content temp2 steps2 name) eqn:Hc;
        [|rewrite !file_content_cases in *; repeat case_decide]. }
  split; [exact Hsame|]. rewrite Hsame.
  rewrite (write_mdp_files_ok _ _ steps2) by done. cbn [snd files].
  rewrite with_mdp_files_nvt, with_mdp_files_npt, with_mdp_files_md.
  rewrite nvt_mdp_shape, npt_mdp_shape, md_mdp_shape.
  rewrite !with_mdp_files_lookup, !file_content_cases.
  unfold shown. by destruct temp2.
Qed.

(** C10: any non-empty line typed at the temperature prompt is taken as it
    is: when the length typed is usable the preparation returns normally, and
    the three files that carry the temperature hold the line typed, unchanged,
    twice on their [ref_t] line. *)
Theorem temperature_is_substituted_verbatim T n rest fs lg x steps :
  T ≠ "" →
  float (or_default n 50) = inr x →
  total_steps (NFloat x) = inr steps →
  ∃ w',
    prepare {| stdin := T :: n :: rest; files := fs; log := lg |} =
      (inr (PStr T, or_default n 50), w')
    ∧ files w' !! "nvt.mdp" =
        Some (nvt_head +:+ ("ref_t                   = " +:+ T +:+ "     " +:+ T +:+ LF)
                +:+ nvt_tail)
    ∧ files w' !! "npt.mdp" =
        Some (npt_head +:+ ("ref_t                   = " +:+ T +:+ "     " +:+ T +:+ LF)
                +:+ npt_tail)
    ∧ files w' !! "md.mdp" =
        Some (md_head +:+ PyText.str_of_int steps +:+ md_mid
                +:+ ("ref_t                   = " +:+ T +:+ "     " +:+ T +:+ LF)
                +:+ md_tail).
Proof.
  intros HT Hx Hsteps. eexists. split.
  - rewrite (prepare_ok T n rest fs lg x steps) by done.
    destruct T; [done|]. reflexivity.
  - cbn [files].
    rewrite with_mdp_files_nvt, with_mdp_files_npt, with_mdp_files_md.
    rewrite nvt_mdp_shape, npt_mdp_shape, md_mdp_shape.
    by destruct T.
Qed.

(** ** Concrete runs *)

(** The solvation step fails with status 2: the run stops there. *)
Lemma failed_command_stops_pipeline_witness :
  (run solvate_fails [""; ""; "abc"] ∅).1 = 1%N ∧
  ∃ pre, clean pre ∧
    log (run solvate_fails [""; ""; "abc"] ∅).2 =
      pre ++ [Invoked "gmx_mpi solvate -cp box.gro -cs spc216.gro -o solvated.gro -p topol.top"
                None 2%N;
              Printed (failure_message
                "gmx_mpi solvate -cp box.gro -cs spc216.gro -o solvated.gro -p topol.top" 2%N)].
Proof.
  apply (failed_command_stops_pipeline solvate_fails [""; ""; "abc"] ∅
           "gmx_mpi solvate -cp box.gro -cs spc216.gro -o solvated.gro -p topol.top"
           None 2%N).
  - vm_compute. repeat constructor.
  - discriminate.
Defined.

(** C6, as stated, fails: the conversion step exits with status 2 and the
    program exits with status 1, not 2. *)
Lemma external_status_not_propagated :
  Invoked "gmx_mpi pdb2gmx -f abc.pdb -o protein_processed.gro -water tips3p -ignh"
      (Some "8") 2%N ∈ log (run always_two [""; ""; "abc"] ∅).2
  ∧ (run always_two [""; ""; "abc"] ∅).1 = 1%N
  ∧ (run always_two [""; ""; "abc"] ∅).1 ≠ 2%N.
Proof.
  split; [|split].
  - vm_compute. repeat constructor.
  - reflexivity.
  - vm_compute. discriminate.
Qed.

(** One failing [run_step], on an empty world. *)
Lemma failed_command_exits_with_status_one_witness :
  run_step always_two "gmx_mpi mdrun -v -deffnm em" None
      {| stdin := []; files := ∅; log := [] |} =
    (inl (SystemExit 1),
     {| stdin := []; files := ∅;
        log := [] ++ [Invoked "gmx_mpi mdrun -v -deffnm em" None 2%N;
                      Printed (failure_message "gmx_mpi mdrun -v -deffnm em" 2%N)] |})
  ∧ exit_status
      (run_step always_two "gmx_mpi mdrun -v -deffnm em" None
         {| stdin := []; files := ∅; log := [] |}).1 = 1%N.
Proof.
  apply (failed_command_exits_with_status_one always_two
           "gmx_mpi mdrun -v -deffnm em" None
           {| stdin := []; files := ∅; log := [] |} 2%N ∅).
  - reflexivity.
  - discriminate.
Defined.

(** The length [fifty] is not a number for [float]. *)
Lemma unparseable_length_writes_nothing_witness :
  script always_two {| stdin := ["300"; "fifty"; "abc"]; files := ∅; log := [] |} =
    (inl ValueError,
     {| stdin := ["abc"]; files := ∅;
        log := [Prompted temperature_prompt; Prompted length_prompt] |})
  ∧ run always_two ["300"; "fifty"; "abc"] ∅ =
    (1%N, {| stdin := ["abc"]; files := ∅;
             log := [Prompted temperature_prompt; Prompted length_prompt] |}).
Proof.
  apply (unparseable_length_writes_nothing always_two "300" "fifty" ["abc"] ∅).
  - discriminate.
  - reflexivity.
Defined.

(** A blank temperature with the length [50]. *)
Lemma blank_prompts_use_defaults_witness :
  prepare {| stdin := [""; "50"; "abc"]; files := ∅; log := [] |} =
    (inr (PInt 298, PStr "50"),
     {| stdin := ["abc"];
        files := with_mdp_files (PInt 298) 50000000 ∅;
        log := [] ++ [Prompted temperature_prompt; Prompted length_prompt]
                  ++ mdp_events (PInt 298) 50000000 |}).
Proof.
  apply (proj1 (blank_prompts_use_defaults ["abc"] ∅ []) "50" fifty 50000000).
  - reflexivity.
  - reflexivity.
Defined.

(** A generation for 50 ns, at the temperature typed as [310] and at the
    integer 298. *)
Lemma equilibration_ref_t_both_equal_temp_witness :
  let w := {| stdin := []; files := ∅; log := [] |} in
  (files (write_mdp_files (PStr "310") (NFloat fifty) w).2 !! "nvt.mdp" =
     Some (nvt_head
             +:+ ("ref_t                   = " +:+ "310" +:+ "     " +:+ "310" +:+ LF)
             +:+ nvt_tail)
   ∧ files (write_mdp_files (PStr "310") (NFloat fifty) w).2 !! "npt.mdp" =
     Some (npt_head
             +:+ ("ref_t                   = " +:+ "310" +:+ "     " +:+ "310" +:+ LF)
             +:+ npt_tail))
  ∧ (files (write_mdp_files (PInt 298) (NFloat fifty) w).2 !! "nvt.mdp" =
       Some (nvt_head
               +:+ ("ref_t                   = " +:+ "298" +:+ "     " +:+ "298" +:+ LF)
               +:+ nvt_tail)
     ∧ files (write_mdp_files (PInt 298) (NFloat fifty) w).2 !! "npt.mdp" =
       Some (npt_head
               +:+ ("ref_t                   = " +:+ "298" +:+ "     " +:+ "298" +:+ LF)
               +:+ npt_tail)).
Proof.
  intros w.
  destruct (equilibration_ref_t_both_equal_temp (NFloat fifty) 50000000 w)
    as [Hstr Hint].
  - reflexivity.
  - split; [apply (Hstr "310") | apply (Hint 298)].
Defined.

(** A generation for (298, 50.0) followed by one for (310, 2). *)
Lemma regeneration_overwrites_witness :
  let w := {| stdin := []; files := ∅; log := [] |} in
  let after :=
    files (write_mdp_files (PStr "310") (NInt 2)
             (write_mdp_files (PStr "298") (NFloat fifty) w).2).2 in
  after = files (write_mdp_files (PStr "310") (NInt 2) w).2
  ∧ after !! "ions.mdp" = Some ("integrator = steep" +:+ LF)
  ∧ after !! "minim.mdp" =
      Some ("integrator  = steep" +:+ LF +:+
            "emtol       = 1000.0" +:+ LF +:+
            "emstep      = 0.01" +:+ LF +:+
            "nsteps      = 50000" +:+ LF +:+
            "nstlist     = 1" +:+ LF +:+
            "cutoff-scheme = Verlet" +:+ LF +:+
            "ns_type     = grid" +:+ LF +:+
            "coulombtype = PME" +:+ LF +:+
            "rcoulomb    = 1.0" +:+ LF +:+
            "rvdw        = 1.0" +:+ LF +:+
            "pbc         = xyz" +:+ LF)
  ∧ after !! "nvt.mdp" =
      Some (nvt_head
              +:+ ("ref_t                   = " +:+ "310" +:+ "     " +:+ "310" +:+ LF)
              +:+ nvt_tail)
  ∧ after !! "npt.mdp" =
      Some (npt_head
              +:+ ("ref_t                   = " +:+ "310" +:+ "     " +:+ "310" +:+ LF)
              +:+ npt_tail)
  ∧ after !! "md.mdp" =
      Some (md_head +:+ "2000000" +:+ md_mid
              +:+ ("ref_t                   = " +:+ "310" +:+ "     " +:+ "310" +:+ LF)
              +:+ md_tail).
Proof.
  intros w.
  apply (regeneration_overwrites (PStr "298") (NFloat fifty) (PStr "310") (NInt 2)
           2000000 w).
  reflexivity.
Defined.

(** The temperature [hot] goes into the files as it is. *)
Lemma temperature_is_substituted_verbatim_witness :
  ∃ w',
    prepare {| stdin := ["hot"; "50"; "abc"]; files := ∅; log := [] |} =
      (inr (PStr "hot", PStr "50"), w')
    ∧ files w' !! "nvt.mdp" =
        Some (nvt_head +:+ ("ref_t                   = " +:+ "hot" +:+ "     " +:+ "hot" +:+ LF)
                +:+ nvt_tail)
    ∧ files w' !! "npt.mdp" =
        Some (npt_head +:+ ("ref_t                   = " +:+ "hot" +:+ "     " +:+ "hot" +:+ LF)
                +:+ npt_tail)
    ∧ files w' !! "md.mdp" =
        Some (md_head +:+ PyText.str_of_int 50000000 +:+ md_mid
                +:+ ("ref_t                   = " +:+ "hot" +:+ "     " +:+ "hot" +:+ LF)
                +:+ md_tail).
Proof.
  apply (temperature_is_substituted_verbatim "hot" "50" ["abc"] ∅ [] fifty 50000000).
  - discriminate.
  - reflexivity.
  - reflexivity.
Defined.

(** The length 50, typed as [50], at temperature [310]. *)
Lemma whole_number_length_gives_exact_nsteps_witness :
  ∃ w',
    prepare {| stdin := ["310"; PyText.str_of_int 50; "abc"]; files := ∅; log := [] |} =
      (inr (or_default "310" 298, PStr (PyText.str_of_int 50)), w')
    ∧ files w' !! "md.mdp" = Some (md_mdp (or_default "310" 298) (50 * 1000000))
    ∧ md_mdp (or_default "310" 298) (50 * 1000000) =
        md_head +:+ PyText.str_of_int (50 * 1000000) +:+ md_mid
          +:+ ref_t_line (or_default "310" 298) +:+ md_tail.
Proof.
  apply (whole_number_length_gives_exact_nsteps "310" 50 ["abc"] ∅ []).
  lia.
Defined.

(** * Further properties of the script *)

(** ** Every way a run can end *)

Lemma float_error n e : float (or_default n 50) = inl e → e = ValueError.
Proof.
  destruct n as [|a n]; [discriminate|]. cbn.
  destruct (PyFloat.of_string (String a n)); [discriminate|]. by intros [= <-].
Qed.

Lemma total_steps_error x e :
  total_steps (NFloat x) = inl e → e = ValueError ∨ e = OverflowError.
Proof.
  unfold total_steps. change (PyFloat.of_int 1000000) with (@inr exn _ million).
  cbn iota. destruct (PyFloat.mul x million); cbn; intros H; inversion H; auto.
Qed.

Lemma prepare_bad_steps t n rest fs lg x e :
  float (or_default n 50) = inr x →
  total_steps (NFloat x) = inl e →
  prepare {| stdin := t :: n :: rest; files := fs; log := lg |} =
    (inl e, {| stdin := rest; files := fs;
               log := lg ++ [Prompted temperature_prompt; Prompted length_prompt] |}).
Proof.
  intros Hx He. unfold prepare. run_prog. rewrite Hx.
  rewrite (write_mdp_files_raises _ _ e) by done. by rewrite <- !app_assoc.
Qed.

(** Every way in which the preparation can end. *)
Lemma prepare_cases w :
  (stdin w = [] ∧ prepare w = (inl EOFError, emit (Prompted temperature_prompt) w))
  ∨ (∃ t, stdin w = [t] ∧
       prepare w =
         (inl EOFError,
          {| stdin := []; files := files w;
             log := log w ++ [Prompted temperature_prompt; Prompted length_prompt] |}))
  ∨ (∃ t n rest e,
       stdin w = t :: n :: rest ∧ (e = ValueError ∨ e = OverflowError) ∧
       prepare w =
         (inl e,
          {| stdin := rest; files := files w;
             log := log w ++ [Prompted temperature_prompt; Prompted length_prompt] |}))
  ∨ (∃ t n rest x steps,
       stdin w = t :: n :: rest ∧
       float (or_default n 50) = inr x ∧ total_steps (NFloat x) = inr steps ∧
       prepare w =
         (inr (or_default t 298, or_default n 50),
          {| stdin := rest;
             files := with_mdp_files (or_default t 298) steps (files w);
             log := log w ++ [Prompted temperature_prompt; Prompted length_prompt]
                      ++ mdp_events (or_default t 298) steps |})).
Proof.
  destruct w as [[|t [|n rest]] fs lg]; cbn [stdin files log].
  - left. by split.
  - right. left. exists t. split; [done|]. unfold prepare. run_prog.
    by rewrite <- app_assoc.
  - right. right. destruct (float (or_default n 50)) as [e|x] eqn:Hx.
    + left. exists t, n, rest, e. split; [done|].
      split; [left; by apply (float_error n)|]. by apply prepare_bad_length.
    + destruct (total_steps (NFloat x)) as [e|steps] eqn:Hs.
      * left. exists t, n, rest, e. split; [done|].
        split; [by apply (total_steps_error x)|]. by apply (prepare_bad_steps _ _ _ _ _ x).
      * right. exists t, n, rest, x, steps. repeat (split; [done|]).
        by apply (prepare_ok _ _ _ _ _ x).
Qed.

Lemma invocations_app l1 l2 :
  invocations (l1 ++ l2) = invocations l1 ++ invocations l2.
Proof. apply omap_app. Qed.

Lemma invocations_mdp_events temp steps : invocations (mdp_events temp steps) = [].
Proof. reflexivity. Qed.

Lemma invocations_invoked_ok cmds : invocations (invoked_ok cmds) = cmds.
Proof.
  induction cmds as [|[c i] cmds IH]; [done|].
  cbn. f_equal. exact IH.
Qed.

Section Outcomes.

Variable engine : string → option string → gmap string string → N * gmap string string.

Lemma run_all_cases cmds k w :
  (∃ fs', run_all engine cmds k w =
            k {| stdin := stdin w; files := fs'; log := log w ++ invoked_ok cmds |})
  ∨ (∃ done c i rc rest fs0 fs',
        cmds = done ++ (c, i) :: rest ∧ engine c i fs0 = (rc, fs') ∧ rc ≠ 0%N ∧
        run_all engine cmds k w =
          (inl (SystemExit 1),
           {| stdin := stdin w; files := fs';
              log := log w ++ invoked_ok done
                       ++ [Invoked c i rc; Printed (failure_message c rc)] |})).
Proof.
  revert w. induction cmds as [|[c i] cmds IH]; intros w; cbn [run_all].
  - left. exists (files w). cbn. rewrite app_nil_r. by destruct w.
  - unfold mbind, prog_bind.
    destruct (engine c i (files w)) as [rc fs] eqn:He.
    destruct (N.eq_dec rc 0%N) as [->|Hrc].
    + rewrite (run_step_success _ _ _ _ fs) by done.
      destruct (IH {| stdin := stdin w; files := fs; log := log w ++ [Invoked c i 0%N] |})
        as [[fs' Hk]|(done & c' & i' & rc & rest & fs0 & fs' & -> & He' & Hrc & Hrun)].
      * left. exists fs'. rewrite Hk. cbn. by rewrite <- app_assoc.
      * right. exists ((c, i) :: done), c', i', rc, rest, fs0, fs'.
        split; [done|]. split; [done|]. split; [done|].
        rewrite Hrun. cbn. by rewrite <- app_assoc.
    + right. exists [], c, i, rc, cmds, (files w), fs.
      split; [done|]. split; [done|]. split; [done|].
      by rewrite (run_step_failure _ _ _ _ rc fs).
Qed.

Lemma pipeline_cases user_temp user_ns w :
  (stdin w = [] ∧
   pipeline engine user_temp user_ns w = (inl EOFError, emit (Prompted pdb_prompt) w))
  ∨ (∃ p rest fs',
       stdin w = p :: rest ∧
       pipeline engine user_temp user_ns w =
         (inr tt,
          {| stdin := rest; files := fs';
             log := log w ++ [Prompted pdb_prompt]
                      ++ invoked_ok (commands (PyText.strip p) user_ns)
                      ++ [Printed (completion_message user_temp user_ns)] |}))
  ∨ (∃ p rest done c i rc rest' fs0 fs',
       stdin w = p :: rest ∧
       commands (PyText.strip p) user_ns = done ++ (c, i) :: rest' ∧
       engine c i fs0 = (rc, fs') ∧ rc ≠ 0%N ∧
       pipeline engine user_temp user_ns w =
         (inl (SystemExit 1),
          {| stdin := rest; files := fs';
             log := log w ++ [Prompted pdb_prompt] ++ invoked_ok done
                      ++ [Invoked c i rc; Printed (failure_message c rc)] |})).
Proof.
  rewrite pipeline_run_all. unfold mbind, prog_bind, input.
  destruct w as [[|p rest] fs lg]; cbn [stdin files log].
  - left. by split.
  - right.
    match goal with |- context [run_all engine ?cs ?k ?w] =>
      destruct (run_all_cases cs k w)
        as [[fs' Hk]|(done & c & i & rc & rest' & fs0 & fs' & Hc & He & Hrc & Hrun)] end.
    + left. exists p, rest, fs'. split; [done|]. rewrite Hk.
      unfold print, emit. cbn. by rewrite <- !app_assoc.
    + right. exists p, rest, done, c, i, rc, rest', fs0, fs'.
      split; [done|]. split; [done|]. split; [done|]. split; [done|].
      rewrite Hrun. cbn. by rewrite <- !app_assoc.
Qed.

(** Every way in which the script can end. *)
Lemma run_cases lines fs :
  (* the input ends before the structure name has been read, or the length
     is unusable *)
  ((run engine lines fs).1 = 1%N ∧ invocations (log (run engine lines fs).2) = [])
  (* a command fails *)
  ∨ (∃ t n p rest x steps done c i rc rest' fs0 fs',
       lines = t :: n :: p :: rest ∧
       float (or_default n 50) = inr x ∧ total_steps (NFloat x) = inr steps ∧
       commands (PyText.strip p) (or_default n 50) = done ++ (c, i) :: rest' ∧
       engine c i fs0 = (rc, fs') ∧ rc ≠ 0%N ∧
       run engine lines fs =
         (1%N,
          {| stdin := rest; files := fs';
             log := [Prompted temperature_prompt; Prompted length_prompt]
                      ++ mdp_events (or_default t 298) steps
                      ++ [Prompted pdb_prompt] ++ invoked_ok done
                      ++ [Invoked c i rc; Printed (failure_message c rc)] |}))
  (* the run completes *)
  ∨ (∃ t n p rest x steps fs',
       lines = t :: n :: p :: rest ∧
       float (or_default n 50) = inr x ∧ total_steps (NFloat x) = inr steps ∧
       run engine lines fs =
         (0%N, {| stdin := rest; files := fs'; log := complete_log t n p steps |})).
Proof.
  unfold run, script, mbind, prog_bind.
  destruct (prepare_cases {| stdin := lines; files := fs; log := [] |})
    as [[_ ->]|[(t & _ & ->)|[(t & n & rest & e & _ & He & ->)
       |(t & n & rest & x & steps & Hl & Hx & Hs & ->)]]];
    cbn [stdin files log] in *.
  - left. by split.
  - left. by split.
  - left. by destruct He as [-> | ->].
  - subst lines.
    match goal with |- context [pipeline engine ?ut ?un ?w] =>
      destruct (pipeline_cases ut un w)
        as [[Hin ->]|[(p & rest' & fs' & Hin & ->)
           |(p & rest' & done & c & i & rc & rest'' & fs0 & fs' & Hin & Hc & He & Hrc & ->)]]
    end; cbn [stdin files log] in Hin.
    + left. split; [done|]. cbn [snd log emit].
      by rewrite !invocations_app, invocations_mdp_events.
    + subst rest. right. right. exists t, n, p, rest', x, steps, fs'.
      repeat (split; [done|]). cbn [exit_status log]. unfold complete_log.
      by rewrite app_nil_l, <- !app_assoc.
    + subst rest. right. left.
      exists t, n, p, rest', x, steps, done, c, i, rc, rest'', fs0, fs'.
      repeat (split; [done|]). cbn [exit_status log].
      by rewrite app_nil_l, <- !app_assoc.
Qed.

End Outcomes.

(** ** Runs as a whole *)

Section Runs.

Variable engine : string → option string → gmap string string → N * gmap string string.



(** X3: whatever is typed and whatever the commands do, the exit status of
    the script is 0 or 1. *)
Theorem exit_status_zero_or_one lines fs :
  (run engine lines fs).1 = 0%N ∨ (run engine lines fs).1 = 1%N.
Proof.
  destruct (run_cases engine lines fs)
    as [[Hone _]|[(t & n & p & rest & x & steps & done & c & i & rc & rest' & fs0 & fs'
                    & _ & _ & _ & _ & _ & _ & Hrun)
       |(t & n & p & rest & x & steps & fs' & Hl & Hx & Hs & Hrun)]].
  - by right.
  - right. by rewrite Hrun.
  - left. by rewrite Hrun.
Qed.

(** X4: the command lines invoked, with their piped input, are always an
    initial part of the pipeline built from the structure name and the length
    typed: nothing else is run, nothing is skipped or reordered; with fewer
    than three lines typed nothing is run at all. *)
Theorem invocations_follow_the_pipeline lines fs :
  match lines with
  | t :: n :: p :: _ =>
      invocations (log (run engine lines fs).2)
        `prefix_of` commands (PyText.strip p) (or_default n 50)
  | _ => invocations (log (run engine lines fs).2) = []
  end.
Proof.
  destruct (run_cases engine lines fs)
    as [[_ Hnone]|[(t & n & p & rest & x & steps & done & c & i & rc & rest' & fs0 & fs'
                    & -> & _ & _ & Hc & _ & _ & Hrun)
       |(t & n & p & rest & x & steps & fs' & -> & Hx & Hs & Hrun)]].
  - rewrite Hnone. destruct lines as [|t [|n [|p rest]]]; try done. apply prefix_nil.
  - rewrite Hrun, Hc. cbn [snd log].
    rewrite !invocations_app, invocations_mdp_events, invocations_invoked_ok. cbn.
    exists rest'. by rewrite <- app_assoc.
  - rewrite Hrun. cbn [snd log]. unfold complete_log.
    rewrite !invocations_app, invocations_mdp_events, invocations_invoked_ok. cbn.
    rewrite ?app_nil_r. reflexivity.
Qed.

(** X5: when the input ends early the script stops with an uncaught
    [EOFError], exit status 1: at the first or second prompt nothing has been
    written; at the third prompt the five files have already been generated
    and no command is run. *)
Theorem input_ends_early fs :
  run engine [] fs =
    (1%N, {| stdin := []; files := fs; log := [Prompted temperature_prompt] |})
  ∧ (∀ t, run engine [t] fs =
            (1%N, {| stdin := []; files := fs;
                     log := [Prompted temperature_prompt; Prompted length_prompt] |}))
  ∧ (∀ t n x steps,
       float (or_default n 50) = inr x →
       total_steps (NFloat x) = inr steps →
       run engine [t; n] fs =
         (1%N, {| stdin := [];
                  files := with_mdp_files (or_default t 298) steps fs;
                  log := [Prompted temperature_prompt; Prompted length_prompt]
                           ++ mdp_events (or_default t 298) steps
                           ++ [Prompted pdb_prompt] |})).
Proof.
  split; [done|]. split; [done|].
  intros t n x steps Hx Hs. unfold run, script, mbind, prog_bind.
  rewrite (prepare_ok t n [] fs [] x steps) by done.
  rewrite pipeline_run_all. unfold mbind, prog_bind, input. cbn [stdin files log].
  unfold emit. cbn [exit_status stdin files log]. by rewrite app_nil_l, <- !app_assoc.
Qed.

(** X6: when the length typed is read as a float for which
    [int(ns_length * 1000000)] raises (an infinity, a NaN, or a product that
    overflows), the script ends with that [ValueError] or [OverflowError]
    right after the two prompts, exit status 1: no file is written and no
    command is run. *)
Theorem unusable_step_count_writes_nothing t n rest fs x e :
  float (or_default n 50) = inr x →
  total_steps (NFloat x) = inl e →
  script engine {| stdin := t :: n :: rest; files := fs; log := [] |} =
    (inl e, {| stdin := rest; files := fs;
               log := [Prompted temperature_prompt; Prompted length_prompt] |})
  ∧ run engine (t :: n :: rest) fs =
    (1%N, {| stdin := rest; files := fs;
             log := [Prompted temperature_prompt; Prompted length_prompt] |})
  ∧ (e = ValueError ∨ e = OverflowError).
Proof.
  intros Hx He. pose proof (total_steps_error x e He) as Hkind.
  unfold run, script, mbind, prog_bind.
  rewrite (prepare_bad_steps t n rest fs [] x e) by done.
  split; [done|]. split; [|done]. by destruct Hkind as [-> | ->].
Qed.

End Runs.

(** ** Generation and equivalent inputs *)

(** X7: a generation leaves every file other than the five parameter files
    as it was, adds exactly the five names to the directory when it
    completes, and reads nothing from the input. *)
Theorem generation_touches_only_its_files temp ns_length w :
  (∀ name, name ∉ mdp_names →
     files (write_mdp_files temp ns_length w).2 !! name = files w !! name)
  ∧ (∀ steps, total_steps ns_length = inr steps →
       dom (files (write_mdp_files temp ns_length w).2) =
         dom (files w) ∪ list_to_set mdp_names)
  ∧ stdin (write_mdp_files temp ns_length w).2 = stdin w.
Proof.
  destruct (total_steps ns_length) as [e|steps] eqn:Hs.
  - rewrite (write_mdp_files_raises _ _ e) by done. by repeat split.
  - rewrite (write_mdp_files_ok _ _ steps) by done. cbn [snd files stdin].
    split; [|split; [|done]].
    + intros name Hname. rewrite with_mdp_files_lookup, file_content_cases.
      unfold mdp_names in Hname.
      repeat (apply not_elem_of_cons in Hname as [? Hname]).
      by repeat case_decide.
    + intros steps' _. unfold with_mdp_files, mdp_names.
      rewrite !dom_insert_L. cbn [list_to_set foldr].
      rewrite (union_empty_r_L {["md.mdp"]}), !(assoc_L (∪)).
      apply set_eq. intros name. rewrite !elem_of_union, !elem_of_singleton. tauto.
Qed.

Section Equivalences.

Variable engine : string → option string → gmap string string → N * gmap string string.

(** X8: leaving the temperature prompt blank gives the same run as typing
    [298], and leaving the length prompt blank the same run as typing [50]:
    same exit status, same log, same files, same input left. *)
Theorem blank_line_is_the_typed_default t n rest fs :
  run engine ("" :: n :: rest) fs = run engine ("298" :: n :: rest) fs
  ∧ run engine (t :: "" :: rest) fs = run engine (t :: "50" :: rest) fs.
Proof.
  unfold run, script, mbind, prog_bind. split.
  - destruct (float (or_default n 50)) as [e|x] eqn:Hx.
    + by rewrite !(prepare_bad_length _ n rest fs [] e).
    + destruct (total_steps (NFloat x)) as [e|steps] eqn:Hs.
      * by rewrite !(prepare_bad_steps _ n rest fs [] x e).
      * by rewrite !(prepare_ok _ n rest fs [] x steps).
  - rewrite (prepare_ok t "" rest fs [] fifty 50000000) by done.
    by rewrite (prepare_ok t "50" rest fs [] fifty 50000000).
Qed.

(** *** Stripping twice is stripping once *)







End Equivalences.

(** X10: for a whole number of at most 576,460,752,303 in absolute value,
    passing the length as an [int], as the default argument does, or as the
    float of that integer, as the script does, gives the same step count and
    the same generation. *)
Theorem int_and_float_lengths_agree temp n w :
  -576460752303 ≤ n ≤ 576460752303 →
  ∃ x, PyFloat.of_int n = inr x
       ∧ total_steps (NFloat x) = total_steps (NInt n)
       ∧ write_mdp_files temp (NFloat x) w = write_mdp_files temp (NInt n) w.
Proof.
  intros Hn.
  assert (Hx : ∃ x, PyFloat.of_int n = inr x ∧ total_steps (NFloat x) = inr (n * 1000000)).
  { destruct n as [|p|p].
    - by exists (S754_zero false).
    - exists (binary_round PyFloat.prec PyFloat.emax false p 0). split.
      + unfold PyFloat.of_int, binary_normalize.
        rewrite FloatFacts.binary_round_int; [done|].
        apply Z.lt_succ_r, Z.log2_lt_pow2; [lia|].
        change (2 ^ Z.succ 52) with 9007199254740992. lia.
      + unfold total_steps. rewrite FloatFacts.of_int_million.
        by rewrite FloatFacts.steps_of_whole_number by lia.
    - exists (binary_round PyFloat.prec PyFloat.emax true p 0). split.
      + unfold PyFloat.of_int, binary_normalize.
        rewrite FloatFacts.binary_round_int; [done|].
        apply Z.lt_succ_r, Z.log2_lt_pow2; [lia|].
        change (2 ^ Z.succ 52) with 9007199254740992. lia.
      + unfold total_steps. rewrite FloatFacts.of_int_million.
        by rewrite FloatFacts.steps_of_whole_number by lia. }
  destruct Hx as (x & Hof & Hs). exists x. split; [done|]. split; [done|].
  rewrite (write_mdp_files_ok temp (NFloat x) (n * 1000000)) by done.
  by rewrite (write_mdp_files_ok temp (NInt n) (n * 1000000)).
Qed.

(** ** The files left behind *)

Section Files.

Variable engine : string → option string → gmap string string → N * gmap string string.

Lemma run_all_files cmds k w :
  (∀ w', files (k w').2 = files w') →
  files (run_all engine cmds k w).2 = after_commands engine cmds (files w).
Proof.
  intros Hk. revert w. induction cmds as [|[c i] cmds IH]; intros w;
    cbn [run_all after_commands].
  - apply Hk.
  - unfold mbind, prog_bind.
    destruct (engine c i (files w)) as [rc fs] eqn:He.
    destruct (N.eq_dec rc 0%N) as [->|Hrc].
    + rewrite (run_step_success _ _ _ _ fs) by done. by rewrite IH.
    + rewrite (run_step_failure _ _ _ _ rc fs) by done.
      apply N.eqb_neq in Hrc. by rewrite Hrc.
Qed.

(** X12: the script writes nothing after the generation: each command finds
    the files as the previous one left them, the first one finds the working
    directory with the five generated files, and the final directory is what
    the last command invoked left, also when that command failed. *)
Theorem files_are_what_the_commands_leave t n p rest fs x steps :
  float (or_default n 50) = inr x →
  total_steps (NFloat x) = inr steps →
  files (run engine (t :: n :: p :: rest) fs).2 =
    after_commands engine (commands (PyText.strip p) (or_default n 50))
      (with_mdp_files (or_default t 298) steps fs).
Proof.
  intros Hx Hs. unfold run, script, mbind, prog_bind.
  rewrite (prepare_ok t n (p :: rest) fs [] x steps) by done.
  rewrite pipeline_run_all. unfold mbind, prog_bind, input. cbn [stdin files log].
  match goal with |- context [run_all engine ?cs ?k ?w] =>
    pose proof (run_all_files cs k w) as Hfiles;
    destruct (run_all engine cs k w) as [r w'] end.
  cbn [snd] in *. rewrite Hfiles; [done|]. by intros w''.
Qed.

End Files.

(** ** Concrete runs, continued *)



(** Two blank lines and then the end of the input. *)
Lemma input_ends_early_witness :
  run always_zero [""; ""] ∅ =
    (1%N, {| stdin := [];
             files := with_mdp_files (or_default "" 298) 50000000 ∅;
             log := [Prompted temperature_prompt; Prompted length_prompt]
                      ++ mdp_events (or_default "" 298) 50000000
                      ++ [Prompted pdb_prompt] |}).
Proof.
  apply (proj2 (proj2 (input_ends_early always_zero ∅)) "" "" fifty 50000000).
  - reflexivity.
  - reflexivity.
Defined.

(** The length [1e305]: a finite float whose product with a million
    overflows. *)
Lemma unusable_step_count_writes_nothing_witness :
  script always_zero {| stdin := ["300"; "1e305"; "abc"]; files := ∅; log := [] |} =
    (inl OverflowError,
     {| stdin := ["abc"]; files := ∅;
        log := [Prompted temperature_prompt; Prompted length_prompt] |})
  ∧ run always_zero ["300"; "1e305"; "abc"] ∅ =
    (1%N, {| stdin := ["abc"]; files := ∅;
             log := [Prompted temperature_prompt; Prompted length_prompt] |})
  ∧ (OverflowError = ValueError ∨ OverflowError = OverflowError).
Proof.
  apply (unusable_step_count_writes_nothing always_zero "300" "1e305" ["abc"] ∅
           (S754_finite false 5130671001622970 961) OverflowError).
  - vm_compute. reflexivity.
  - vm_compute. reflexivity.
Defined.

(** A topology file next to a generation for 310 K and 50 ns. *)
Lemma generation_touches_only_its_files_witness :
  let w := {| stdin := []; files := {["topol.top" := "top"]}; log := [] |} in
  files (write_mdp_files (PStr "310") (NFloat fifty) w).2 !! "topol.top" =
    files w !! "topol.top"
  ∧ dom (files (write_mdp_files (PStr "310") (NFloat fifty) w).2) =
      dom (files w) ∪ list_to_set mdp_names.
Proof.
  intros w.
  destruct (generation_touches_only_its_files (PStr "310") (NFloat fifty) w)
    as (Hframe & Hdom & _).
  split.
  - apply Hframe. unfold mdp_names. intros Hin.
    repeat (apply elem_of_cons in Hin as [Hin|Hin]; [discriminate Hin|]).
    by apply elem_of_nil in Hin.
  - apply (Hdom 50000000). reflexivity.
Defined.

(** The length 50 as an [int] and as a float. *)
Lemma int_and_float_lengths_agree_witness :
  ∃ x, PyFloat.of_int 50 = inr x
       ∧ total_steps (NFloat x) = total_steps (NInt 50)
       ∧ write_mdp_files (PInt 298) (NFloat x) {| stdin := []; files := ∅; log := [] |} =
         write_mdp_files (PInt 298) (NInt 50) {| stdin := []; files := ∅; log := [] |}.
Proof.
  apply (int_and_float_lengths_agree (PInt 298) 50 {| stdin := []; files := ∅; log := [] |}).
  lia.
Defined.

(** A run in which the solvation step fails. *)
Lemma files_are_what_the_commands_leave_witness :
  files (run solvate_fails [""; ""; "abc"] ∅).2 =
    after_commands solvate_fails (commands (PyText.strip "abc") (or_default "" 50))
      (with_mdp_files (or_default "" 298) 50000000 ∅).
Proof.
  apply (files_are_what_the_commands_leave solvate_fails "" "" "abc" [] ∅ fifty 50000000).
  - reflexivity.
  - reflexivity.
Defined.
